(* ===== verification/_CoqProject ===== *)
-Q . S2P
Prelude.v
Scalars.v
Point3D.v
Geometry.v
Binary64.v
Triangle.v
Triangles.v
Counters.v
Session.v
Adjustment.v
Main.v
Output.v
Containment.v
