(* ===== verification/Prelude.v ===== *)
(** * Triangulation_1: a verification development of [src/main.cpp]

    ** The program

    [src/main.cpp] is a small 3-D geometry kernel on [double]:
    - the class [Point3D] (lines 9-56): three coordinates, the operators
      [+ - * /], [cross], [distanceTo] and [vector_tweak], the one method
      that may mutate its receiver;
    - free functions (lines 59-82): [determinant], [dotProduct],
      [angleBetweenVectors], [normalVector] and [sign], built on [Point3D];
    - the class [Triangle] (lines 86-169): [contains] (a determinant
      pre-check, then three [sign]s compared), [area], [sideLength],
      [isEquilateral] (the relative spread of the side lengths) and
      [improveEquilateral], whose [while] loop may assign [*this];
    - the class [Triangles] (lines 171-192): a [std::vector<Triangle>],
      [addTriangle] and [connectClosestPoints], three nested loops over the
      triples [i < j < k] which call [contains] and then
      [improveEquilateral] on the three triangles;
    - [main] (lines 195-210), which builds one triangle, prints its
      deviation, calls [improveEquilateral()] and prints the deviation again.

    ** The files

    - [Prelude] (this file): the scalar interface [Scalar] that every
      operation is written against, with its notations in [scalar_scope];
      the loop combinators [while_loop] (a C++ [while] whose body may
      [return]) and [for_loop] (a counted loop that re-reads its bound), with
      their total-correctness lemmas and their partial-correctness lemmas
      (what a loop returns, whatever the fuel); [fold_opt], a body run over a
      list of indices, which a counted loop equals once its bound is known
      ([for_loop_seq]); the small-step relation [loop_step] of [while_loop]
      and the liveness predicate [eventually], with the agreement of the
      fuel interpreter and the small steps ([while_loop_eventually]); shared
      tactics and the hint base [geo].
    - [Scalars]: the two instances of [Scalar].  [Scalar_float] is IEEE
      binary64 (Rocq's primitive floats, correctly rounded like the C++
      [double] operations), on which every definition runs by [vm_compute];
      [Scalar_R] is exact real arithmetic, on which the algebra is proved.
    - [Point3D]: the record [Point3D] and one definition per operator and
      method; [vector_tweak] returns (receiver after the call, returned
      value), so that the aliasing of [inplace = true] is explicit.
    - [Geometry]: the free functions.  [std::acos] is passed to
      [angleBetweenVectors] as an argument (binary64 has no primitive for it).
    - [Binary64]: exact facts about binary64 from the IEEE specification of
      the primitive floats ([SpecFloat], [FloatAxioms]): [*] is commutative,
      [(a - b) * (a - b) = (b - a) * (b - a)] bit for bit, zeros and NaN
      propagate through the operations; hence [distanceTo] is symmetric,
      [dotProduct] commutative and [sign] is [-1] on a zero cross product,
      on [double].
    - [Triangle]: the record [Triangle] and its methods; [std::max] and
      [std::min] over an initializer list are [max3] and [min3], the scans of
      [std::max_element] and [std::min_element]; [improveEquilateral] runs its
      loop through [while_loop] with the state (receiver, copy, deviation).
    - [Triangles]: the vector as a list, [triangles[i]] as stdpp's lookup
      and [triangles[i] = e] as stdpp's list insert; [connectClosestPoints]
      as three [for_loop]s sharing one fuel bound ([connect_loops], whose
      innermost body is a parameter, instantiated with [connect_body]);
      [triples] is the index sequence of the three loop headers.
    - [Counters]: the loops of [connectClosestPoints] with the [int]
      counters of the code ([for_loop_int], [connect_loops_int],
      [connectClosestPoints_int]).
    - [Session]: the callers of a [Triangles] object, which [main.cpp] does
      not contain: a sequence of [addTriangle] and [connectClosestPoints]
      calls ([run_calls]) and the transition system [tstep] with the states
      [reachable] from the empty set.
    - [Adjustment]: the contract the spec sets for the intended
      [improveEquilateral] ([improve_contract]: converged within the
      tolerance, non-convergence only above it, inputs within it unchanged),
      the spec's algorithm with its suggested centroid correction
      ([improve_spec_loop]; a specification, not code of [src/]) and the
      code's outcome ([code_outcome]).
    - [Containment]: what a point-in-triangle test promises, as the record
      [InsideTest] (accept the open triangle, accept nothing outside the
      closed one), a reference test [contains_ref] that keeps the promise,
      and the frame [(s, u, h)] of a point ([decompose], Cramer's rule) in
      which [contains] is characterised completely.
    - [Main]: [main] as the list of values it prints, and the program run on
      binary64 at the inputs of [main] and of the spec.
    - [Output]: [Point3D::print], [Triangle::print] and the lines [main]
      writes, as lists of tokens (text, a [double], a newline, [std::endl]);
      [main_stdout] is the text of [main], and [parse_main] a parser of it.

    ** What is proved

    - [contains] (Triangle): in exact arithmetic it accepts a point iff the
      determinant pre-check passes and the three cross products of corner
      vectors are all non-zero or all zero ([contains_iff]); for a
      non-degenerate triangle and a point of its plane, iff none of the
      point's barycentric coordinates is zero ([contains_in_plane]), so every
      point of the plane off the three side lines is "contained".  The cause
      is [sign] (Geometry): [determinant a b (normalVector a b)] is the length
      of [cross a b], so [sign a b = 1] iff [a] and [b] are not parallel
      ([sign_nonparallel]).  In the frame [(s, u, h)] of a non-degenerate
      triangle, [contains] accepts exactly the points with [h = 0] and no
      zero barycentric coordinate, and every point with [h < 0], however far
      away ([contains_decomposed], [contains_off_plane]); in exact arithmetic
      it accepts the open triangle ([contains_accepts_interior]) and,
      accepting [(5,5,0)], is not an [InsideTest] ([contains_not_inside_test],
      lemmas of Containment).  On binary64 [contains] accepts [(5,5,0)] and
      [(1,1,-100)] for the triangle [(0,0,0), (4,0,0), (0,4,0)] and rejects
      each of its three corners (Main).
    - [improveEquilateral] terminates after at most one iteration and
      returns its receiver unchanged, whatever its arguments
      ([improveEquilateral_identity]); [connectClosestPoints] terminates once
      the fuel exceeds the number of triangles and leaves the set unchanged
      ([connectClosestPoints_id]), and whatever the fuel, a pass that
      returns returns the set unchanged.  The three loops are the body run
      over [triples n] in order, for every body that keeps the size of the
      vector ([connect_loops_triples]); [triples n] is exactly the triples
      [i < j < k < n], strictly increasing in lexicographic order, and
      there are [n (n - 1) (n - 2) / 6] of them ([triples_spec]).  In the
      small-step semantics of its loop, every execution of
      [improveEquilateral] reaches the end of the method
      ([improveEquilateral_eventually], liveness).  Against the spec's
      contract for the intended method (Adjustment), the code is correct
      exactly on the triangles already within the tolerance
      ([improveEquilateral_contract_iff]); the spec's own algorithm meets
      the contract ([improve_spec_loop_sound]), but with the centroid
      correction it suggests it never converges, the correction being a
      homothety that keeps the deviation
      ([improve_spec_loop_centroid_stuck]).  [main] prints the same deviation,
      [0.52859547920896832] on binary64, before and after ([main_binary64]).
    - [isEquilateral] lies in [[0, 1]], is [0] exactly for equilateral
      triangles, below [1] when no corners coincide, and unchanged by a
      rotation or reversal of the corners; [max3] and [min3]
      agree with [Rmax] and [Rmin]; on binary64 it is NaN for a triangle
      reduced to a point.  In exact arithmetic it is unchanged by scaling the
      triangle ([isEquilateral_scale]); on binary64 scaling the triangle of
      [main] by [10^200] makes [std::pow(d, 2)] overflow and the deviation
      NaN ([isEquilateral_overflow_binary64]).
    - A client of [Triangles] (Session): every sequence of calls finishes
      with enough fuel and leaves the triangles added in the order of the
      calls ([run_calls_added]); in every reachable state, every stored
      triangle is one the client added ([reachable_only_added]), by rule
      induction on [reachable].
    - Output (Output): the text of [main]'s printing statements parses back
      into its two deviations and the triangle ([main_output_roundtrip]);
      on binary64, [main] writes the same deviation twice around the three
      [Point(...)] lines of its triangle ([main_stdout_binary64]).
    - The algebra, in exact arithmetic: [determinant] is the triple
      product and antisymmetric; [cross] is anticommutative and orthogonal
      to its operands; [normalVector] has unit length; [distanceTo] is a
      metric; [div (mul v k) k = v]; [vector_tweak] by [-delta] undoes a
      tweak by [delta]; the ratio given to [acos] lies in [[-1, 1]]; [area]
      is zero exactly for degenerate triangles.  Several of these are
      identities of the reals that rounding breaks on [double]: the tweak
      round trip fails at [(1,1,1)] with [delta = 1/11]
      ([vector_tweak_roundtrip_binary64]); the ratio for [a = b = (1,1,1)]
      is [1.0000000000000002] and [acos] returns NaN, as the spec says of
      the source; [(0.1,0.1,0.1) * 3 / 3] is not [(0.1,0.1,0.1)]; the area
      of a tiny triangle underflows to [0].  They are kept as lemmas of the
      exact model, not as properties of the program.
    - On binary64 itself, for all inputs: [distanceTo] is symmetric and
      [dotProduct] commutative; [cross] anticommutative up to the sign of
      zeros ([cross_anticomm_binary64]); [sign a b = -1] whenever [cross a b] is a
      vector of zeros, because [normalVector] is then NaN (Binary64); and
      [contains] rejects every corner of every non-degenerate triangle
      with finite coordinates ([contains_corners_binary64], Main).  The
      exact characterisation of [contains] does not carry over to tilted
      triangles: there the determinant pre-check is rounding noise, and a
      point exactly in the plane and strictly inside can be rejected
      ([contains_interior_rejected_binary64], Main).

    ** Fuel and bounds

    The only loops are the [while] of [improveEquilateral], whose body
    always returns, so fuel [1] is enough; and the three [for] loops of
    [connectClosestPoints], for which fuel [n + 1] is enough for [n]
    triangles (every loop runs at most [n] times and the inner calls need
    fuel [1]).  The theorems are stated for every fuel above these bounds;
    a session of [m] calls from [n] triangles needs fuel [n + m + 1].  The
    partial-correctness lemmas hold for every fuel.
    The loop counters are [int] in C++.  [Triangles] counts with [nat];
    [Counters] counts with [int] as [Z] (the test [i < size()] after the
    conversion to the 64-bit [size_t], [i++] an error past [INT_MAX]) and
    proves the two agree on every vector of at most [INT_MAX] triangles
    ([connectClosestPoints_int_nat]), while a larger vector overflows [k]
    ([connectClosestPoints_int_overflow]).

    ** Plan for the development

    Done: every operation of the four classes and [main], on both scalar
    instances, with the theorems above; the point-in-triangle contract with
    the complete characterisation of [contains]; the callers of [Triangles]
    as a transition system; the loops of [connectClosestPoints] as a fold
    over their index triples; the liveness of the loop of
    [improveEquilateral]; the spec's contract for the intended
    [improveEquilateral]; the [int] counters of the loops; the text the
    program writes.  Next, in this order:
    - a correction that does meet the contract (moving the corners of the
      longest side toward each other) and its convergence;
    - more binary64 lemmas through [FloatAxioms]: invariance of
      [isEquilateral] under a permutation of the corners when no side is
      NaN; bounds on the rounding error of [distanceTo];

    ** Not modelled

    The decimal text [operator<<] makes of a [double] (six significant
    digits by default) is not modelled: [Output] keeps the [double] itself
    in the token stream.  [std::acos] is a parameter.  [std::pow(d, 2)] is modelled as [d * d],
    its correctly rounded value, which is also what GCC folds it to.
    Properties of binary64 beyond evaluation at concrete inputs (rounding
    error bounds of the exact-model theorems) are not stated. *)

From Stdlib Require Import ZArith List Lia.
Import ListNotations.

(** ** The scalar interface

    Every operation of [src/main.cpp] computes on [double].  The geometry is
    written once against this class of scalar operations; [Scalars.v]
    provides two instances, IEEE binary64 (the primitive floats of Rocq,
    the semantics the C++ program has) and the real numbers (the exact
    arithmetic the algorithm is designed for). *)
Class Scalar (F : Type) := {
  s_of_Z : Z -> F;             (** integer literal converted to [double] *)
  s_add : F -> F -> F;
  s_sub : F -> F -> F;
  s_mul : F -> F -> F;
  s_div : F -> F -> F;
  s_sqrt : F -> F;             (** [std::sqrt] *)
  s_ltb : F -> F -> bool       (** the built-in [<] on [double] *)
}.

Declare Scope scalar_scope.
Delimit Scope scalar_scope with sc.
Notation "x + y" := (s_add x y) : scalar_scope.
Notation "x - y" := (s_sub x y) : scalar_scope.
Notation "x * y" := (s_mul x y) : scalar_scope.
Notation "x / y" := (s_div x y) : scalar_scope.
Notation "x <? y" := (s_ltb x y) : scalar_scope.

(** ** Loops

    A C++ [while] (or [for]) loop whose body may leave the enclosing function
    with [return] is modelled by [while_loop]: [cond] is the loop condition,
    re-evaluated before every iteration on the current state; [body] runs one
    iteration and yields [Continue] with the next state, [Return] with the
    value of a [return] statement, or [None] when a loop nested inside it ran
    out of fuel; [exit] is what the function does after the loop.  The fuel
    bounds the number of iterations; [None] means it was not enough. *)
Inductive step (St R : Type) : Type :=
| Continue (s : St)
| Return (r : R).
Arguments Continue {St R} s.
Arguments Return {St R} r.

Fixpoint while_loop {St R : Type} (fuel : nat) (cond : St -> bool)
    (body : St -> option (step St R)) (exit : St -> R) (s : St) : option R :=
  match fuel with
  | O => None
  | S fuel' =>
      if cond s then
        match body s with
        | None => None
        | Some (Continue s') => while_loop fuel' cond body exit s'
        | Some (Return r) => Some r
        end
      else Some (exit s)
  end.

(** A counted loop [for (i = lo; i < hi(); i++) body], where the bound is
    re-read from the state at every test (as [triangles.size()] is). *)
Definition for_loop {St : Type} (fuel : nat) (hi : St -> nat)
    (body : nat -> St -> option St) (lo : nat) (s : St) : option St :=
  option_map snd
    (while_loop fuel (fun st => Nat.ltb (fst st) (hi (snd st)))
       (fun st => option_map (fun s' => Continue (S (fst st), s')) (body (fst st) (snd st)))
       (fun st => st) (lo, s)).

(** A loop body run over a list of indices, in order, stopping at the first
    failure: the meaning of a counted loop once its bound is known. *)
Fixpoint fold_opt {A St : Type} (f : A -> St -> option St) (l : list A) (s : St)
    : option St :=
  match l with
  | [] => Some s
  | a :: l' =>
      match f a s with
      | None => None
      | Some s' => fold_opt f l' s'
      end
  end.

(** ** Small-step view of [while_loop]

    A loop configuration is running in a state or finished with a result;
    [loop_step] is one test of the condition with, when it holds, one run
    of the body.  [eventually P c] (as in coqutil's
    [OmniSmallstepCombinators], for a step relation with one successor)
    says that every execution from [c] reaches a configuration in [P]. *)
Inductive loop_conf (St R : Type) : Type :=
| Running (s : St)
| Finished (r : R).
Arguments Running {St R} s.
Arguments Finished {St R} r.

Inductive loop_step {St R : Type} (cond : St -> bool) (body : St -> option (step St R))
    (exit : St -> R) : loop_conf St R -> loop_conf St R -> Prop :=
| loop_step_continue (s s' : St) :
    cond s = true -> body s = Some (Continue s') -> loop_step cond body exit (Running s) (Running s')
| loop_step_return (s : St) (r : R) :
    cond s = true -> body s = Some (Return r) -> loop_step cond body exit (Running s) (Finished r)
| loop_step_exit (s : St) :
    cond s = false -> loop_step cond body exit (Running s) (Finished (exit s)).

Inductive eventually {C : Type} (stepr : C -> C -> Prop) (P : C -> Prop) : C -> Prop :=
| eventually_done (c : C) : P c -> eventually stepr P c
| eventually_step (c : C) :
    (exists c', stepr c c') -> (forall c', stepr c c' -> eventually stepr P c') ->
    eventually stepr P c.

Create HintDb geo.

(** ** Loop lemmas *)
Section LoopLemmas.
Context {St R : Type} (cond : St -> bool) (body : St -> option (step St R))
  (exit : St -> R).

(** More fuel never changes a result that was reached. *)
Lemma while_loop_fuel_mono (n m : nat) (s : St) (r : R) :
  while_loop n cond body exit s = Some r -> n <= m ->
  while_loop m cond body exit s = Some r.
Proof.
  revert m s. induction n as [|n IH]; intros m s Hrun Hle; [discriminate|].
  destruct m as [|m]; [lia|]. cbn in *.
  destruct (cond s); [|exact Hrun].
  destruct (body s) as [[s'|r']|]; [apply IH; [exact Hrun|lia]|exact Hrun|discriminate].
Qed.

(** Total correctness of a loop: an invariant [P], established on entry and
    kept by every iteration whose measure [m] strictly decreases, gives a
    result satisfying [Q] as soon as the fuel exceeds the measure. *)
Lemma while_loop_correct (P : St -> Prop) (Q : R -> Prop) (m : St -> nat) :
  (forall s, P s -> cond s = true ->
     match body s with
     | Some (Continue s') => P s' /\ m s' < m s
     | Some (Return r) => Q r
     | None => False
     end) ->
  (forall s, P s -> cond s = false -> Q (exit s)) ->
  forall fuel s, P s -> m s < fuel ->
  exists r, while_loop fuel cond body exit s = Some r /\ Q r.
Proof.
  intros Hstep Hexit fuel. induction fuel as [|fuel IH]; intros s HP Hm; [lia|].
  cbn. destruct (cond s) eqn:Hc.
  - specialize (Hstep s HP Hc).
    destruct (body s) as [[s'|r]|]; [|eauto|contradiction].
    destruct Hstep as [HP' Hm']. apply IH; [exact HP'|lia].
  - eauto.
Qed.

(** Partial correctness: whatever the fuel, a result the loop does return
    satisfies [Q], given an invariant kept by every iteration. *)
Lemma while_loop_partial (P : St -> Prop) (Q : R -> Prop) :
  (forall s st, P s -> cond s = true -> body s = Some st ->
     match st with Continue s' => P s' | Return r => Q r end) ->
  (forall s, P s -> cond s = false -> Q (exit s)) ->
  forall fuel s r, P s -> while_loop fuel cond body exit s = Some r -> Q r.
Proof.
  intros Hstep Hexit fuel. induction fuel as [|fuel IH]; intros s r HP Hrun; [discriminate|].
  cbn in Hrun. destruct (cond s) eqn:Hc; [|injection Hrun as <-; auto].
  destruct (body s) as [[s'|r']|] eqn:Hb; [|injection Hrun as <-|discriminate].
  - apply (IH s'); [exact (Hstep s _ HP Hc Hb)|exact Hrun].
  - exact (Hstep s _ HP Hc Hb).
Qed.

(** The fuel interpreter agrees with the small-step semantics: a result it
    returns is reached by every execution of the loop. *)
Lemma while_loop_eventually (fuel : nat) (s : St) (r : R) :
  while_loop fuel cond body exit s = Some r ->
  eventually (loop_step cond body exit) (fun c => c = Finished r) (Running s).
Proof.
  revert s. induction fuel as [|fuel IH]; intros s Hrun; [discriminate|].
  cbn in Hrun. apply eventually_step.
  - destruct (cond s) eqn:Hc; [|eexists; apply loop_step_exit, Hc].
    destruct (body s) as [[s'|r']|] eqn:Hb; [| |discriminate]; eexists;
      [apply loop_step_continue|apply loop_step_return]; eassumption.
  - intros c' Hst. inversion Hst as [s0 s' Hc Hb| s0 r' Hc Hb| s0 Hc]; subst;
      rewrite Hc in Hrun; [rewrite Hb in Hrun; apply IH, Hrun| |];
      [rewrite Hb in Hrun|]; injection Hrun as <-; apply eventually_done; reflexivity.
Qed.

End LoopLemmas.

Section ForLoopLemmas.
Context {St : Type} (hi : St -> nat) (body : nat -> St -> option St).

(** A counted loop terminates when its body succeeds and leaves the bound
    unchanged; the invariant [Inv i s] (state [s] before iteration [i]) then
    holds on exit at an index past the bound. *)
Lemma for_loop_correct (Inv : nat -> St -> Prop) (fuel lo : nat) (s : St) :
  (forall i s, Inv i s -> i < hi s ->
     exists s', body i s = Some s' /\ Inv (S i) s' /\ hi s' = hi s) ->
  Inv lo s -> hi s - lo < fuel ->
  exists s', for_loop fuel hi body lo s = Some s' /\
             exists i, Inv i s' /\ hi s' <= i.
Proof.
  intros Hbody Hlo Hfuel. unfold for_loop.
  edestruct (while_loop_correct (fun st => Nat.ltb (fst st) (hi (snd st)))
              (fun st => option_map (fun s' => Continue (S (fst st), s')) (body (fst st) (snd st)))
              (fun st => st)
              (fun st => Inv (fst st) (snd st))
              (fun st => Inv (fst st) (snd st) /\ hi (snd st) <= fst st)
              (fun st => hi (snd st) - fst st))
    with (fuel := fuel) (s := (lo, s)) as [[i s'] [Hrun [HI Hge]]].
  - intros [i s0] HI Hlt. cbn in *. apply Nat.ltb_lt in Hlt.
    destruct (Hbody i s0 HI Hlt) as (s1 & -> & HI1 & Hhi). cbn. rewrite Hhi. split; [exact HI1|lia].
  - intros [i s0] HI Hge. cbn in *. apply Nat.ltb_ge in Hge. auto.
  - exact Hlo.
  - exact Hfuel.
  - rewrite Hrun. cbn. eauto.
Qed.

(** A counted loop whose every iteration returns the state unchanged
    returns it unchanged, given more fuel than iterations. *)
Lemma for_loop_id (fuel lo : nat) (s : St) :
  (forall i, lo <= i -> i < hi s -> body i s = Some s) ->
  hi s - lo < fuel -> for_loop fuel hi body lo s = Some s.
Proof.
  intros Hbody Hfuel.
  destruct (for_loop_correct (fun i s' => s' = s /\ lo <= i) fuel lo s)
    as (s' & Hrun & i & [-> _] & _); [|split; [reflexivity|lia]|exact Hfuel|exact Hrun].
  intros i s0 [-> Hi] Hlt. exists s. split; [apply Hbody; assumption|split; [split; [reflexivity|lia]|reflexivity]].
Qed.

(** A property kept by every iteration holds of whatever a counted loop
    returns, whatever the fuel. *)
Lemma for_loop_inv (P : St -> Prop) (fuel lo : nat) (s s' : St) :
  (forall i s0 s1, body i s0 = Some s1 -> P s0 -> P s1) ->
  for_loop fuel hi body lo s = Some s' -> P s -> P s'.
Proof.
  intros Hbody Hrun HP. unfold for_loop in Hrun.
  destruct (while_loop _ _ _ _ _) as [[i s1]|] eqn:Hw; [|discriminate].
  injection Hrun as <-. change s1 with (snd (i, s1)).
  eapply (while_loop_partial _ _ _ (fun st => P (snd st)) (fun st => P (snd st)));
    [| |exact (HP : P (snd (lo, s)))|exact Hw].
  - intros [i0 s0] st Hs0 _ Hb. cbn in *.
    destruct (body i0 s0) as [s2|] eqn:Hb2; [|discriminate]. injection Hb as <-. cbn.
    exact (Hbody _ _ _ Hb2 Hs0).
  - intros st Hst _. exact Hst.
Qed.

(** A counted loop whose iterations, when they succeed, return the state
    unchanged, returns the state unchanged whenever it returns, whatever
    the fuel. *)
Lemma for_loop_some_id (fuel lo : nat) (s s' : St) :
  (forall i s0 s1, body i s0 = Some s1 -> s1 = s0) ->
  for_loop fuel hi body lo s = Some s' -> s' = s.
Proof.
  intros Hbody Hrun. apply (for_loop_inv (fun s1 => s1 = s) fuel lo s s'); [|exact Hrun|reflexivity].
  intros i s0 s1 Hb ->. exact (Hbody _ _ _ Hb).
Qed.

(** One iteration of a counted loop. *)
Lemma for_loop_unfold (fuel lo : nat) (s : St) :
  for_loop (S fuel) hi body lo s =
  if Nat.ltb lo (hi s) then
    match body lo s with
    | None => None
    | Some s' => for_loop fuel hi body (S lo) s'
    end
  else Some s.
Proof.
  unfold for_loop. cbn [while_loop fst snd].
  destruct (Nat.ltb lo (hi s)); [|reflexivity]. destruct (body lo s); reflexivity.
Qed.

(** A counted loop whose body keeps the bound is the body run over the
    indices [lo, lo + 1, ..., hi - 1], given more fuel than iterations. *)
Lemma for_loop_seq (fuel lo : nat) (s : St) :
  (forall i s0 s1, body i s0 = Some s1 -> hi s1 = hi s0) ->
  hi s - lo < fuel -> for_loop fuel hi body lo s = fold_opt body (seq lo (hi s - lo)) s.
Proof.
  intros Hhi. revert lo s. induction fuel as [|fuel IH]; intros lo s Hf; [lia|].
  rewrite for_loop_unfold. destruct (Nat.ltb_spec lo (hi s)) as [Hlt|Hge].
  - replace (hi s - lo) with (S (hi s - S lo)) by lia. cbn.
    destruct (body lo s) as [s'|] eqn:Hb; [|reflexivity].
    rewrite <- (Hhi _ _ _ Hb). apply IH. rewrite (Hhi _ _ _ Hb). lia.
  - replace (hi s - lo) with 0 by lia. reflexivity.
Qed.

End ForLoopLemmas.

(** Two counted loops agree when their bodies agree, below the bound, on
    the states the first passes through, described by an invariant [P]. *)
Lemma for_loop_ext_inv {St : Type} (hi : St -> nat) (b1 b2 : nat -> St -> option St)
    (P : St -> Prop) (fuel lo : nat) (s : St) :
  (forall i s0, i < hi s0 -> P s0 -> b1 i s0 = b2 i s0) ->
  (forall i s0 s1, b1 i s0 = Some s1 -> P s0 -> P s1) ->
  P s -> for_loop fuel hi b1 lo s = for_loop fuel hi b2 lo s.
Proof.
  intros Heq Hinv. revert lo s. induction fuel as [|fuel IH]; intros lo s HP; [reflexivity|].
  rewrite !for_loop_unfold. destruct (Nat.ltb_spec lo (hi s)) as [Hlt|]; [|reflexivity].
  rewrite <- (Heq lo s Hlt HP). destruct (b1 lo s) as [s1|] eqn:Hb; [|reflexivity].
  exact (IH (S lo) s1 (Hinv _ _ _ Hb HP)).
Qed.

(** ** Lemmas on [fold_opt] *)

Lemma fold_opt_app {A St : Type} (f : A -> St -> option St) (l1 l2 : list A) (s : St) :
  fold_opt f (l1 ++ l2) s =
  match fold_opt f l1 s with None => None | Some s' => fold_opt f l2 s' end.
Proof.
  revert s. induction l1 as [|a l1 IH]; intros s; cbn; [reflexivity|].
  destruct (f a s); [apply IH|reflexivity].
Qed.

(** A property kept by every step is kept by the fold. *)
Lemma fold_opt_inv {A St : Type} (P : St -> Prop) (f : A -> St -> option St)
    (l : list A) (s s' : St) :
  (forall a s0 s1, f a s0 = Some s1 -> P s0 -> P s1) ->
  fold_opt f l s = Some s' -> P s -> P s'.
Proof.
  intros Hf. revert s. induction l as [|a l IH]; intros s Hrun HP; cbn in Hrun.
  - injection Hrun as <-. exact HP.
  - destruct (f a s) as [s1|] eqn:Ha; [|discriminate]. exact (IH s1 Hrun (Hf _ _ _ Ha HP)).
Qed.

(** Folding over a [flat_map] is folding the inner folds. *)
Lemma fold_opt_flat_map {A B St : Type} (f : B -> St -> option St) (g : A -> list B)
    (l : list A) (s : St) :
  fold_opt f (flat_map g l) s = fold_opt (fun a => fold_opt f (g a)) l s.
Proof.
  revert s. induction l as [|a l IH]; intros s; cbn; [reflexivity|].
  rewrite fold_opt_app. destruct (fold_opt f (g a) s); [apply IH|reflexivity].
Qed.

Lemma fold_opt_map {A B St : Type} (f : B -> St -> option St) (h : A -> B)
    (l : list A) (s : St) :
  fold_opt f (map h l) s = fold_opt (fun a => f (h a)) l s.
Proof.
  revert s. induction l as [|a l IH]; intros s; cbn; [reflexivity|].
  destruct (f (h a) s); [apply IH|reflexivity].
Qed.

(** Two folds agree when their steps agree on the states the fold passes
    through, described by an invariant [P]. *)
Lemma fold_opt_ext {A St : Type} (P : St -> Prop) (f g : A -> St -> option St)
    (l : list A) (s : St) :
  (forall a s0, In a l -> P s0 -> f a s0 = g a s0) ->
  (forall a s0 s1, f a s0 = Some s1 -> P s0 -> P s1) ->
  P s -> fold_opt f l s = fold_opt g l s.
Proof.
  intros Hfg Hf. revert s. induction l as [|a l IH]; intros s HP; cbn; [reflexivity|].
  rewrite <- (Hfg a s (or_introl eq_refl) HP).
  destruct (f a s) as [s1|] eqn:Ha; [|reflexivity].
  apply IH; [intros; apply Hfg; [right|]; assumption|exact (Hf _ _ _ Ha HP)].
Qed.

(** ** Tactics shared by the development *)

(** [inv H]: invert a hypothesis and clean up. *)
Ltac inv H := inversion H; subst; clear H.

(** [case_if]: split on the first [if] of the goal, keeping its equation. *)
Ltac case_if :=
  match goal with
  | |- context [if ?b then _ else _] => let E := fresh "E" in destruct b eqn:E
  end.
