(* ===== verification/Scalars.v ===== *)
(** * Scalars: the two instances of the scalar interface

    [Scalar_float] is IEEE 754 binary64 with round-to-nearest-even, the
    semantics of C++ [double] on the platforms the program targets: Rocq's
    primitive floats compute exactly the bits the compiled program computes
    for [+ - * /] and [std::sqrt] (all correctly rounded), and [s_ltb] is the
    IEEE comparison, false as soon as one operand is NaN.  Every definition
    of the development evaluates on it by [vm_compute].

    [Scalar_R] is exact real arithmetic.  Its division by zero returns [0]
    (Rocq's convention) where [double] returns an infinity or NaN, so the
    theorems proved over [R] carry hypotheses that keep divisors non-zero
    wherever the result depends on it. *)

From Stdlib Require Import ZArith Reals Lra.
From Stdlib Require PrimFloat SpecFloat FloatOps.
From S2P Require Import Prelude.

(** Conversion of an integer literal to [double] (exact for the literals of
    the program, which are all small). *)
Definition float_of_Z (n : Z) : PrimFloat.float :=
  FloatOps.SF2Prim (SpecFloat.binary_normalize FloatOps.prec FloatOps.emax n 0 false).

#[export] Instance Scalar_float : Scalar PrimFloat.float := {|
  s_of_Z := float_of_Z;
  s_add := PrimFloat.add;
  s_sub := PrimFloat.sub;
  s_mul := PrimFloat.mul;
  s_div := PrimFloat.div;
  s_sqrt := PrimFloat.sqrt;
  s_ltb := PrimFloat.ltb
|}.

(** The boolean [<] on the reals. *)
Definition Rltb (a b : R) : bool := if Rlt_dec a b then true else false.

#[export] Instance Scalar_R : Scalar R := {|
  s_of_Z := IZR;
  s_add := Rplus;
  s_sub := Rminus;
  s_mul := Rmult;
  s_div := Rdiv;
  s_sqrt := sqrt;
  s_ltb := Rltb
|}.

Open Scope R_scope.

Lemma Rltb_true (a b : R) : Rltb a b = true <-> a < b.
Proof. unfold Rltb. destruct (Rlt_dec a b); split; intros; auto; discriminate. Qed.

Lemma Rltb_false (a b : R) : Rltb a b = false <-> b <= a.
Proof. unfold Rltb. destruct (Rlt_dec a b); split; intros; try lra; try discriminate; auto. Qed.

(** [rsimpl] turns the scalar operations at [R] into the operations of
    the Reals library. *)
Ltac rsimpl :=
  cbn [s_of_Z s_add s_sub s_mul s_div s_sqrt s_ltb Scalar_R] in *.


(** A sum of three squares vanishes only when each term does. *)
Lemma sum3_sq_zero (a b c : R) : a ^ 2 + b ^ 2 + c ^ 2 = 0 -> a = 0 /\ b = 0 /\ c = 0.
Proof.
  intros Hs. pose proof (pow2_ge_0 a). pose proof (pow2_ge_0 b). pose proof (pow2_ge_0 c).
  assert (a ^ 2 = 0 /\ b ^ 2 = 0 /\ c ^ 2 = 0) as (Ha & Hb & Hc) by lra.
  repeat split; nra.
Qed.

(** A sum of three squares is positive as soon as one term is non-zero. *)
Lemma sum3_sq_pos (a b c : R) : ~ (a = 0 /\ b = 0 /\ c = 0) -> 0 < a ^ 2 + b ^ 2 + c ^ 2.
Proof.
  intros Hn. pose proof (pow2_ge_0 a). pose proof (pow2_ge_0 b). pose proof (pow2_ge_0 c).
  destruct (Req_dec (a ^ 2 + b ^ 2 + c ^ 2) 0) as [Hz|Hz]; [|lra].
  exfalso. apply Hn, sum3_sq_zero, Hz.
Qed.

(** [destruct_rltb]: case on an innermost boolean comparison [Rltb a b] of
    the goal, turning it into [a < b] or [b <= a]. *)
Ltac destruct_rltb :=
  match goal with
  | |- context [Rltb ?a ?b] =>
      lazymatch a with context [Rltb _ _] => fail | _ =>
      lazymatch b with context [Rltb _ _] => fail | _ =>
      let E := fresh "E" in
      destruct (Rltb a b) eqn:E; [apply Rltb_true in E|apply Rltb_false in E]
      end end
  end.
