(* ===== verification/Point3D.v ===== *)
(** * Point3D: the class [Point3D] of [src/main.cpp] (lines 9-56)

    The three [double] fields become a record over the scalar type; every
    operator and method that returns a new point is a function.  The one
    method that mutates its receiver, [vector_tweak], returns the pair
    (receiver after the call, returned value).  [print] is output only and
    is not modelled.  The lemmas over [R] state the algebra of the exact
    model: anticommutativity of [cross], the metric properties of
    [distanceTo] and the round trip of [operator*] and [operator/]. *)

From Stdlib Require Import ZArith Reals Lra.
From S2P Require Import Prelude Scalars.

Record Point3D (F : Type) : Type := mkPoint3D { x : F; y : F; z : F }.
Arguments mkPoint3D {F} _ _ _.
Arguments x {F} _.
Arguments y {F} _.
Arguments z {F} _.

Section Point3DOps.
Context {F : Type} `{Scalar F}.
Local Open Scope scalar_scope.

(** The constructor [Point3D(double x, double y, double z)] called with
    integer literals, which C++ converts to [double]. *)
Definition point_of_Z (a b c : Z) : Point3D F := mkPoint3D (s_of_Z a) (s_of_Z b) (s_of_Z c).

(** The point [{0, 0, 0}] that [angleBetweenVectors], [normalVector] and
    [area] build from integer literals to measure a length. *)
Definition origin : Point3D F := point_of_Z 0 0 0.

(** [operator+] *)
Definition add (p other : Point3D F) : Point3D F :=
  mkPoint3D (x p + x other) (y p + y other) (z p + z other).

(** [operator-] *)
Definition sub (p other : Point3D F) : Point3D F :=
  mkPoint3D (x p - x other) (y p - y other) (z p - z other).

(** [operator*(const double& a)]: [{a*x, a*y, a*z}], scalar on the left. *)
Definition mul (p : Point3D F) (a : F) : Point3D F :=
  mkPoint3D (a * x p) (a * y p) (a * z p).

(** [vector_tweak(vector, delta, inplace)]: the pair (receiver after the
    call, returned point).  With [inplace] the three fields are updated by
    [+=] and [*this] is returned; otherwise a new point is returned and the
    receiver is left as it was. *)
Definition vector_tweak (self vector : Point3D F) (delta : F) (inplace : bool)
    : Point3D F * Point3D F :=
  if inplace then
    let self' := mkPoint3D (x self + delta * x vector) (y self + delta * y vector)
                   (z self + delta * z vector) in
    (self', self')
  else
    (self, mkPoint3D (x self + delta * x vector) (y self + delta * y vector)
             (z self + delta * z vector)).

(** [cross] *)
Definition cross (p other : Point3D F) : Point3D F :=
  mkPoint3D (y p * z other - z p * y other)
            (z p * x other - x p * z other)
            (x p * y other - y p * x other).

(** [std::pow(d, 2)]: the compiler folds [pow] with the constant exponent
    [2] into [d * d], which is also its correctly rounded value. *)
Definition pow2 (d : F) : F := d * d.

(** [distanceTo] *)
Definition distanceTo (p other : Point3D F) : F :=
  s_sqrt (pow2 (x p - x other) + pow2 (y p - y other) + pow2 (z p - z other)).

(** [operator/(const double& a)] *)
Definition div (p : Point3D F) (a : F) : Point3D F :=
  mkPoint3D (x p / a) (y p / a) (z p / a).

End Point3DOps.

(** ** Exact model *)

Open Scope R_scope.

(** Two points over [R] are equal when their coordinates are. *)
Lemma point3d_eq (p q : Point3D R) : x p = x q -> y p = y q -> z p = z q -> p = q.
Proof. destruct p, q; cbn; intros -> -> ->; reflexivity. Qed.

(** [point_coords] reduces an equation between points over [R] to three
    equations between coordinates; [point_ring] closes them when they are
    ring identities. *)
Ltac point_coords :=
  apply point3d_eq; unfold add, sub, mul, div, cross, origin, point_of_Z, pow2 in *; rsimpl;
  cbn [x y z].
Ltac point_ring := point_coords; ring.

(** [point_neq]: two points with distinct concrete coordinates differ. *)
Ltac point_neq :=
  unfold add, sub, mul, div, cross, origin, point_of_Z in *; rsimpl; cbn [x y z];
  let Heq := fresh "Heq" in intros Heq; injection Heq; intros; lra.

(** The squared length [distanceTo p other] is the root of. *)
Definition dist2 (p other : Point3D R) : R :=
  (x p - x other) ^ 2 + (y p - y other) ^ 2 + (z p - z other) ^ 2.

Lemma dist2_nonneg (p q : Point3D R) : 0 <= dist2 p q.
Proof. unfold dist2. repeat apply Rplus_le_le_0_compat; apply pow2_ge_0. Qed.

Lemma distanceTo_R (p q : Point3D R) : distanceTo p q = sqrt (dist2 p q).
Proof. unfold distanceTo, pow2, dist2. rsimpl. f_equal. ring. Qed.

Lemma distanceTo_nonneg (p q : Point3D R) : 0 <= distanceTo p q.
Proof. rewrite distanceTo_R. apply sqrt_pos. Qed.

Lemma distanceTo_sqr (p q : Point3D R) : distanceTo p q * distanceTo p q = dist2 p q.
Proof. rewrite distanceTo_R. apply sqrt_sqrt, dist2_nonneg. Qed.

Lemma distanceTo_comm (p q : Point3D R) : distanceTo p q = distanceTo q p.
Proof. rewrite !distanceTo_R. f_equal. unfold dist2. ring. Qed.

#[export] Hint Resolve dist2_nonneg distanceTo_nonneg : geo.

(** ** Properties of the point operations *)

(** [cross] is anticommutative, [cross a b = cross b a * (-1)]
    with the program's own [operator*]. *)
Theorem cross_anticomm (a b : Point3D R) : cross a b = mul (cross b a) (-1).
Proof. point_ring. Qed.

(** [distanceTo] is symmetric. *)
Theorem distanceTo_sym (p q : Point3D R) : distanceTo p q = distanceTo q p.
Proof. apply distanceTo_comm. Qed.

Lemma distanceTo_zero_iff (p q : Point3D R) : distanceTo p q = 0 <-> p = q.
Proof.
  rewrite distanceTo_R. split.
  - intros Hs. apply sqrt_eq_0 in Hs; [|apply dist2_nonneg].
    apply sum3_sq_zero in Hs as (Hx & Hy & Hz).
    apply point3d_eq; lra.
  - intros ->. unfold dist2. rewrite <- sqrt_0. f_equal. ring.
Qed.

(** Round trip of the scalar operators: [(v * k) / k == v] for [k <> 0]. *)
Theorem div_mul_roundtrip (v : Point3D R) (k : R) : k <> 0 -> div (mul v k) k = v.
Proof. intros Hk. point_coords; field; exact Hk. Qed.

(** [distanceTo] separates points: it is zero exactly between equal points. *)
Theorem distanceTo_eq0_iff (p q : Point3D R) : distanceTo p q = 0 <-> p = q.
Proof. apply distanceTo_zero_iff. Qed.

Lemma div_mul_roundtrip_witness : div (mul (mkPoint3D 1 2 3) 2) 2 = mkPoint3D 1 2 3.
Proof. apply div_mul_roundtrip. lra. Defined.

(** In exact arithmetic a tweak by [-delta] undoes a tweak by [delta],
    whichever modes the two calls use. *)
Theorem vector_tweak_roundtrip (p v : Point3D R) (delta : R) (inplace1 inplace2 : bool) :
  snd (vector_tweak (snd (vector_tweak p v delta inplace1)) v (- delta) inplace2) = p.
Proof. destruct inplace1, inplace2; cbn; point_ring. Qed.
