(* ===== verification/Geometry.v ===== *)
(** * Geometry: the free functions of [src/main.cpp] (lines 59-82)

    [determinant], [dotProduct], [angleBetweenVectors], [normalVector] and
    [sign], written against the scalar interface.  [std::acos] is not an
    operation of the scalar interface (binary64 has no primitive for it), so
    [angleBetweenVectors] takes it as an argument.

    Over [R] the file proves that [determinant] is the scalar triple product
    and is antisymmetric, that [cross] is orthogonal to its operands (via
    the Lagrange identity, which also gives Cauchy-Schwarz and the domain of
    [acos] in [angleBetweenVectors]), that [normalVector] has unit length,
    and the central fact about [sign]: its value does not depend on the
    orientation of its arguments at all, it is [1] exactly when they are not
    parallel. *)

From Stdlib Require Import ZArith Reals Lra.
From S2P Require Import Prelude Scalars Point3D.

Section GeometryOps.
Context {F : Type} `{Scalar F}.
Local Open Scope scalar_scope.

(** [determinant(a, b, c)] *)
Definition determinant (a b c : Point3D F) : F :=
  x a * (y b * z c - z b * y c) - y a * (x b * z c - z b * x c)
  + z a * (x b * y c - y b * x c).

(** [dotProduct(a, b)] *)
Definition dotProduct (a b : Point3D F) : F :=
  x a * x b + y a * y b + z a * z b.

(** [angleBetweenVectors(a, b)], with [std::acos] as [acos]. *)
Definition angleBetweenVectors (acos : F -> F) (a b : Point3D F) : F :=
  acos (dotProduct a b / (distanceTo a origin * distanceTo b origin)).

(** [normalVector(a, b)] *)
Definition normalVector (a b : Point3D F) : Point3D F :=
  div (cross a b) (distanceTo (cross a b) origin).

(** [sign(a, b)]: [determinant(a, b, normalVector(a,b)) > 0 ? 1 : -1]; the
    literal [0] is converted to [double] for the comparison. *)
Definition sign (a b : Point3D F) : Z :=
  if s_ltb (s_of_Z 0) (determinant a b (normalVector a b)) then 1%Z else (-1)%Z.

End GeometryOps.

(** ** Exact model *)

Open Scope R_scope.

(** The length [distanceTo v {0,0,0}] is the root of [dotProduct v v]. *)
Lemma norm_R (v : Point3D R) : distanceTo v origin = sqrt (dotProduct v v).
Proof. rewrite distanceTo_R. unfold dist2, dotProduct, origin, point_of_Z. rsimpl. cbn [x y z]. f_equal. ring. Qed.

Lemma dot_self_nonneg (v : Point3D R) : 0 <= dotProduct v v.
Proof. unfold dotProduct. rsimpl. nra. Qed.

(** A vector has a non-zero square length exactly when it is not [{0,0,0}]. *)
Lemma dot_self_pos (v : Point3D R) : v <> origin -> 0 < dotProduct v v.
Proof.
  intros Hv. unfold dotProduct. rsimpl.
  replace (x v * x v + y v * y v + z v * z v) with (x v ^ 2 + y v ^ 2 + z v ^ 2) by ring.
  apply sum3_sq_pos. intros (Hx & Hy & Hz). apply Hv.
  apply point3d_eq; unfold origin, point_of_Z; rsimpl; cbn; assumption.
Qed.

(** Equality of points over [R] is decidable. *)
Lemma point_eq_dec_R (p q : Point3D R) : {p = q} + {p <> q}.
Proof.
  destruct p as [px py pz], q as [qx qy qz].
  destruct (Req_EM_T px qx) as [->|Hx]; [|right; congruence].
  destruct (Req_EM_T py qy) as [->|Hy]; [|right; congruence].
  destruct (Req_EM_T pz qz) as [->|Hz]; [left; reflexivity|right; congruence].
Qed.

Lemma dot_self_zero (v : Point3D R) : dotProduct v v = 0 -> v = origin.
Proof.
  intros Hz. destruct (point_eq_dec_R v origin) as [|Hv]; [assumption|].
  apply dot_self_pos in Hv. lra.
Qed.

Lemma norm_pos (v : Point3D R) : v <> origin -> 0 < distanceTo v origin.
Proof. intros Hv. rewrite norm_R. apply sqrt_lt_R0, dot_self_pos, Hv. Qed.

Lemma norm_zero (v : Point3D R) : v = origin -> distanceTo v origin = 0.
Proof. intros ->. apply distanceTo_zero_iff. reflexivity. Qed.

#[export] Hint Resolve dot_self_nonneg norm_pos : geo.

(** [geo_ring]: unfold the vector operations to coordinates and close a
    ring identity. *)
Ltac geo_ring :=
  unfold determinant, dotProduct, cross, div, sub, add, mul, origin, point_of_Z; rsimpl;
  cbn [x y z]; ring.

(** C19: The expanded [determinant] is the scalar triple product
    [a . (b x c)] of the spec. *)
Theorem determinant_triple (a b c : Point3D R) :
  determinant a b c = dotProduct a (cross b c).
Proof. geo_ring. Qed.

Lemma determinant_cross_l (a b c : Point3D R) :
  determinant a b c = dotProduct (cross a b) c.
Proof. geo_ring. Qed.

(** Swapping the first two arguments of [determinant] negates it. *)
Theorem determinant_swap (a b c : Point3D R) :
  determinant b a c = - determinant a b c.
Proof. geo_ring. Qed.

(** [cross a b] is orthogonal to both of its operands. *)
Theorem cross_orthogonal (a b : Point3D R) :
  dotProduct a (cross a b) = 0 /\ dotProduct b (cross a b) = 0.
Proof. split; geo_ring. Qed.

(** Lagrange's identity. *)
Lemma lagrange (a b : Point3D R) :
  dotProduct a a * dotProduct b b
  = dotProduct a b * dotProduct a b + dotProduct (cross a b) (cross a b).
Proof. geo_ring. Qed.

(** Cauchy-Schwarz, from Lagrange's identity. *)
Lemma cauchy_schwarz (a b : Point3D R) :
  Rabs (dotProduct a b) <= distanceTo a origin * distanceTo b origin.
Proof.
  rewrite !norm_R, <- sqrt_mult by apply dot_self_nonneg.
  rewrite <- sqrt_Rsqr_abs. apply sqrt_le_1_alt. unfold Rsqr.
  rewrite lagrange. pose proof (dot_self_nonneg (cross a b)). lra.
Qed.

(** Scaling one operand of [dotProduct] by [operator/]. *)
Lemma dot_div_r (v w : Point3D R) (k : R) : dotProduct v (div w k) = dotProduct v w / k.
Proof. unfold dotProduct, div. rsimpl. cbn [x y z]. unfold Rdiv. ring. Qed.

Lemma dot_div_l (v w : Point3D R) (k : R) : dotProduct (div v k) w = dotProduct v w / k.
Proof. unfold dotProduct, div. rsimpl. cbn [x y z]. unfold Rdiv. ring. Qed.

(** The square of the length [distanceTo v {0,0,0}] is [dotProduct v v]. *)
Lemma norm_sqr (v : Point3D R) :
  distanceTo v origin * distanceTo v origin = dotProduct v v.
Proof. rewrite norm_R. apply sqrt_sqrt, dot_self_nonneg. Qed.

(** [determinant a b (normalVector a b)] is the length of [cross a b],
    for all [a] and [b]: when [cross a b] is zero both sides are zero. *)
Lemma determinant_normal (a b : Point3D R) :
  determinant a b (normalVector a b) = distanceTo (cross a b) origin.
Proof.
  rewrite determinant_cross_l. unfold normalVector.
  set (w := cross a b). clearbody w.
  destruct (point_eq_dec_R w origin) as [->|Hw].
  - rewrite norm_zero by reflexivity. unfold dotProduct, div, origin, point_of_Z. rsimpl. cbn [x y z]. ring.
  - pose proof (norm_pos w Hw) as Hn. rewrite dot_div_r, <- norm_sqr. field. lra.
Qed.

(** [normalVector a b] has unit length when [a] and [b] are not parallel. *)
Theorem normalVector_unit (a b : Point3D R) :
  cross a b <> origin -> distanceTo (normalVector a b) origin = 1.
Proof.
  intros Hw. pose proof (norm_pos _ Hw) as Hn. rewrite norm_R.
  unfold normalVector. rewrite dot_div_r, dot_div_l, <- norm_sqr.
  replace (_ / _ / _) with 1 by (field; lra). apply sqrt_1.
Qed.

(** [sign] over [R], by cases on [cross a b]. *)
Lemma sign_R (a b : Point3D R) :
  sign a b = if point_eq_dec_R (cross a b) origin then (-1)%Z else 1%Z.
Proof.
  unfold sign. rewrite determinant_normal. rsimpl.
  destruct (point_eq_dec_R (cross a b) origin) as [Hw|Hw].
  - rewrite (norm_zero _ Hw). destruct (Rltb (IZR 0) 0) eqn:E; [|reflexivity].
    apply Rltb_true in E. lra.
  - pose proof (norm_pos _ Hw) as Hn. apply Rltb_true in Hn. rewrite Hn. reflexivity.
Qed.

(** C3: [sign a b] is [1] exactly when [cross a b] is not the zero vector: the
    turn direction it is meant to report plays no part, because
    [determinant(a, b, normalVector(a, b))] is the (non-negative) length of
    [cross a b]. *)
Theorem sign_nonparallel (a b : Point3D R) : sign a b = 1%Z <-> cross a b <> origin.
Proof.
  rewrite sign_R. destruct (point_eq_dec_R (cross a b) origin); split; congruence.
Qed.

(** The ratio [angleBetweenVectors] passes to [std::acos] lies in [-1, 1]
    for non-zero vectors in exact arithmetic, so the angle is the one whose
    cosine is that ratio, between [0] and [PI]. *)
Theorem angleBetweenVectors_spec (a b : Point3D R) :
  a <> origin -> b <> origin ->
  let r := dotProduct a b / (distanceTo a origin * distanceTo b origin) in
  -1 <= r <= 1 /\ cos (angleBetweenVectors acos a b) = r /\
  0 <= angleBetweenVectors acos a b <= PI.
Proof.
  intros Ha Hb r. pose proof (norm_pos _ Ha). pose proof (norm_pos _ Hb).
  pose proof (cauchy_schwarz a b) as Hcs.
  assert (Hr : -1 <= r <= 1).
  { subst r. rsimpl. set (d := dotProduct a b) in *. set (m := distanceTo a origin * distanceTo b origin) in *.
    assert (0 < m) by (subst m; nra).
    unfold Rabs in Hcs. destruct (Rcase_abs d); split;
      (apply (Rmult_le_reg_r m); [lra|]); unfold Rdiv; rewrite Rmult_assoc, Rinv_l; lra. }
  unfold angleBetweenVectors. rsimpl. fold r.
  split; [exact Hr|split; [apply cos_acos, Hr|apply acos_bound]].
Qed.

(** ** Witnesses *)

Lemma normalVector_unit_witness :
  distanceTo (normalVector (mkPoint3D 1 0 0) (mkPoint3D 0 1 0)) origin = 1.
Proof. apply normalVector_unit. point_neq. Defined.

Lemma angleBetweenVectors_spec_witness :
  cos (angleBetweenVectors acos (mkPoint3D 1 0 0) (mkPoint3D 0 1 0))
  = dotProduct (mkPoint3D 1 0 0) (mkPoint3D 0 1 0)
    / (distanceTo (mkPoint3D 1 0 0) origin * distanceTo (mkPoint3D 0 1 0) origin).
Proof.
  apply (angleBetweenVectors_spec (mkPoint3D 1 0 0) (mkPoint3D 0 1 0)); point_neq.
Defined.
