(* ===== verification/Binary64.v ===== *)
(** * Binary64: exact facts about the [double] arithmetic of the program

    Lemmas on the IEEE 754 specification of Rocq's primitive floats
    ([SpecFloat], related to [PrimFloat] by [FloatAxioms]): multiplication
    is commutative, round-to-nearest-even is symmetric in the sign, so
    [b - a] is [-(a - b)] up to the sign of a zero and [(a - b) * (a - b)]
    equals [(b - a) * (b - a)] bit for bit; zeros and NaN propagate through
    [+ - * / sqrt] as IEEE 754 prescribes.  They carry the symmetry of
    [distanceTo] and of [dotProduct] from the exact model to [double]
    without any rounding error, and show that [sign] is [-1] on a zero
    cross product: [normalVector] is then [0 / 0]. *)

From Stdlib Require Import ZArith Bool Lia PrimFloat SpecFloat FloatOps FloatAxioms.
From S2P Require Import Prelude Scalars Point3D Geometry.

(** ** The specification level *)

Section Spec.
Variables prec emax : Z.

Lemma SFmul_comm (a b : spec_float) : SFmul prec emax a b = SFmul prec emax b a.
Proof.
  destruct a as [sa|sa| |sa ma ea], b as [sb|sb| |sb mb eb]; cbn;
    rewrite ?(xorb_comm sa sb); try reflexivity.
  rewrite Pos.mul_comm, Z.add_comm. reflexivity.
Qed.

(** Rounding does not look at the sign. *)
Lemma binary_round_aux_negb (s : bool) (m e : Z) (l : location) :
  binary_round_aux prec emax (negb s) m e l = SFopp (binary_round_aux prec emax s m e l).
Proof.
  unfold binary_round_aux.
  destruct (shr_fexp prec emax m e l) as [mrs' e'].
  destruct (shr_fexp prec emax _ e' loc_Exact) as [mrs'' e''].
  destruct (shr_m mrs'') as [|m''|m'']; [reflexivity| |reflexivity].
  destruct (Z.leb e'' (emax - prec)); reflexivity.
Qed.

(** Normalising the opposite of a non-zero integer gives the opposite. *)
Lemma binary_normalize_opp (m e : Z) :
  m <> 0%Z ->
  binary_normalize prec emax (Z.opp m) e false = SFopp (binary_normalize prec emax m e false).
Proof.
  intros Hm. destruct m as [|p|p]; [contradiction| |]; cbn [Z.opp binary_normalize];
    unfold binary_round; destruct (shl_align _ _ _);
    [apply (binary_round_aux_negb false)|].
  rewrite <- (binary_round_aux_negb true). reflexivity.
Qed.

(** A zero of either sign. *)
Definition is_zero (f : spec_float) : Prop :=
  match f with S754_zero _ => True | _ => False end.

(** [b - a] is [-(a - b)], except that both may be a zero of the same sign. *)
Lemma SFsub_swap (a b : spec_float) :
  SFsub prec emax b a = SFopp (SFsub prec emax a b) \/
  (is_zero (SFsub prec emax b a) /\ is_zero (SFsub prec emax a b)).
Proof.
  destruct a as [sa|sa| |sa ma ea], b as [sb|sb| |sb mb eb];
    [try destruct sa; try destruct sb; cbn; auto ..|].
  unfold SFsub. cbv zeta. rewrite (Z.min_comm eb ea).
  set (ez := Z.min ea eb).
  set (u := cond_Zopp sa (Zpos (fst (shl_align ma ea ez)))).
  set (v := cond_Zopp sb (Zpos (fst (shl_align mb eb ez)))).
  destruct (Z.eq_dec (Z.sub u v) 0) as [Hz|Hz].
  - right. rewrite Hz. replace (Z.sub v u) with 0%Z by lia. cbn. auto.
  - left. replace (Z.sub v u) with (Z.opp (Z.sub u v)) by lia.
    apply binary_normalize_opp, Hz.
Qed.

(** A square does not see the sign of its operand. *)
Lemma SFmul_opp_opp (d : spec_float) :
  SFmul prec emax (SFopp d) (SFopp d) = SFmul prec emax d d.
Proof. destruct d as [s|s| |s m e]; try destruct s; reflexivity. Qed.

Lemma SFsub_swap_sq (a b : spec_float) :
  SFmul prec emax (SFsub prec emax b a) (SFsub prec emax b a)
  = SFmul prec emax (SFsub prec emax a b) (SFsub prec emax a b).
Proof.
  destruct (SFsub_swap a b) as [->|[Hba Hab]]; [apply SFmul_opp_opp|].
  destruct (SFsub prec emax b a), (SFsub prec emax a b); try contradiction.
  cbn. rewrite !xorb_nilpotent. reflexivity.
Qed.

(** Finite values (zeros included), and values that are a zero or NaN. *)
Definition sf_finite (f : spec_float) : Prop :=
  match f with S754_zero _ | S754_finite _ _ _ => True | _ => False end.
Definition zero_or_nan (f : spec_float) : Prop :=
  match f with S754_zero _ | S754_nan => True | _ => False end.

Lemma SFmul_zero_l (a b : spec_float) : is_zero a -> sf_finite b -> is_zero (SFmul prec emax a b).
Proof. destruct a, b; cbn; tauto. Qed.

Lemma SFmul_zero_r (a b : spec_float) : sf_finite a -> is_zero b -> is_zero (SFmul prec emax a b).
Proof. destruct a, b; cbn; tauto. Qed.

Lemma SFsub_zero (a b : spec_float) : is_zero a -> is_zero b -> is_zero (SFsub prec emax a b).
Proof. destruct a as [sa| | |], b as [sb| | |]; cbn; try tauto; destruct sa, sb; cbn; tauto. Qed.

Lemma SFadd_zero (a b : spec_float) : is_zero a -> is_zero b -> is_zero (SFadd prec emax a b).
Proof. destruct a as [sa| | |], b as [sb| | |]; cbn; try tauto; destruct sa, sb; cbn; tauto. Qed.

Lemma SFsqrt_zero (a : spec_float) : is_zero a -> is_zero (SFsqrt prec emax a).
Proof. destruct a; cbn; tauto. Qed.

Lemma SFdiv_zero_zero (a b : spec_float) : is_zero a -> is_zero b -> SFdiv prec emax a b = S754_nan.
Proof. destruct a, b; cbn; tauto. Qed.

(** NaN absorbs every operation. *)
Lemma SFmul_nan_l (a : spec_float) : SFmul prec emax S754_nan a = S754_nan.
Proof. reflexivity. Qed.
Lemma SFmul_nan_r (a : spec_float) : SFmul prec emax a S754_nan = S754_nan.
Proof. destruct a; reflexivity. Qed.
Lemma SFsub_nan_l (a : spec_float) : SFsub prec emax S754_nan a = S754_nan.
Proof. reflexivity. Qed.
Lemma SFsub_nan_r (a : spec_float) : SFsub prec emax a S754_nan = S754_nan.
Proof. destruct a; reflexivity. Qed.
Lemma SFadd_nan_l (a : spec_float) : SFadd prec emax S754_nan a = S754_nan.
Proof. reflexivity. Qed.
Lemma SFadd_nan_r (a : spec_float) : SFadd prec emax a S754_nan = S754_nan.
Proof. destruct a; reflexivity. Qed.

(** A zero times anything is a zero or NaN, and zeros and NaNs are closed
    under [+] and [-]. *)
Lemma SFmul_zero_any (a b : spec_float) : is_zero a -> zero_or_nan (SFmul prec emax a b).
Proof. destruct a, b; cbn; tauto. Qed.

Lemma SFsub_zero_or_nan (a b : spec_float) :
  zero_or_nan a -> zero_or_nan b -> zero_or_nan (SFsub prec emax a b).
Proof. destruct a as [sa| | |], b as [sb| | |]; cbn; try tauto; destruct sa, sb; cbn; tauto. Qed.

Lemma SFadd_zero_or_nan (a b : spec_float) :
  zero_or_nan a -> zero_or_nan b -> zero_or_nan (SFadd prec emax a b).
Proof. destruct a as [sa| | |], b as [sb| | |]; cbn; try tauto; destruct sa, sb; cbn; tauto. Qed.

(** A finite value minus itself is [+0]. *)
Lemma SFsub_self (a : spec_float) : sf_finite a -> is_zero (SFsub prec emax a a).
Proof.
  destruct a as [s| | |s m e]; cbn; try tauto; [destruct s; cbn; tauto|].
  intros _. rewrite Z.min_id, Z.sub_diag. cbn. exact I.
Qed.

End Spec.

(** A zero or NaN is never below a zero. *)
Lemma SFltb_zero_or_nan (a b : spec_float) : zero_or_nan a -> is_zero b -> SFltb a b = false.
Proof. destruct a, b; cbn; tauto. Qed.

Lemma SFltb_nan_r (a : spec_float) : SFltb a S754_nan = false.
Proof. destruct a; reflexivity. Qed.

(** ** The primitive level *)

Lemma mul_comm_b64 (a b : float) : (a * b)%float = (b * a)%float.
Proof. apply Prim2SF_inj. rewrite !mul_spec. apply SFmul_comm. Qed.

Lemma sub_swap_sq_b64 (a b : float) :
  ((b - a) * (b - a))%float = ((a - b) * (a - b))%float.
Proof. apply Prim2SF_inj. rewrite !mul_spec, !sub_spec. apply SFsub_swap_sq. Qed.

(** Zeros, finite values, zeros-or-NaN and NaN among the doubles. *)
Definition zero64 (c : float) : Prop := is_zero (Prim2SF c).
Definition fin64 (c : float) : Prop := sf_finite (Prim2SF c).
Definition zon64 (c : float) : Prop := zero_or_nan (Prim2SF c).
Definition nan64 (c : float) : Prop := Prim2SF c = S754_nan.

(** [spec64] rewrites the images of the primitive operations by their IEEE
    specification. *)
Ltac spec64 :=
  unfold zero64, fin64, zon64, nan64 in *;
  rewrite ?mul_spec, ?sub_spec, ?add_spec, ?div_spec, ?sqrt_spec;
  unfold SF64mul, SF64sub, SF64add, SF64div, SF64sqrt.

Lemma zero64_fin (c : float) : zero64 c -> fin64 c.
Proof. unfold zero64, fin64. destruct (Prim2SF c); cbn; tauto. Qed.

Lemma zero64_0 : zero64 (float_of_Z 0).
Proof. vm_compute. exact I. Qed.

Lemma mul_zero_l64 (a b : float) : zero64 a -> fin64 b -> zero64 (a * b)%float.
Proof. spec64. apply SFmul_zero_l. Qed.
Lemma mul_zero_r64 (a b : float) : fin64 a -> zero64 b -> zero64 (a * b)%float.
Proof. spec64. apply SFmul_zero_r. Qed.
Lemma sub_zero64 (a b : float) : zero64 a -> zero64 b -> zero64 (a - b)%float.
Proof. spec64. apply SFsub_zero. Qed.
Lemma add_zero64 (a b : float) : zero64 a -> zero64 b -> zero64 (a + b)%float.
Proof. spec64. apply SFadd_zero. Qed.
Lemma sqrt_zero64 (a : float) : zero64 a -> zero64 (PrimFloat.sqrt a).
Proof. spec64. apply SFsqrt_zero. Qed.
Lemma div_zero_zero64 (a b : float) : zero64 a -> zero64 b -> nan64 (a / b)%float.
Proof. spec64. apply SFdiv_zero_zero. Qed.
Lemma sub_self64 (a : float) : fin64 a -> zero64 (a - a)%float.
Proof. spec64. apply SFsub_self. Qed.

Lemma mul_nan_l64 (a b : float) : nan64 a -> nan64 (a * b)%float.
Proof. spec64. intros ->. apply SFmul_nan_l. Qed.
Lemma mul_nan_r64 (a b : float) : nan64 b -> nan64 (a * b)%float.
Proof. spec64. intros ->. apply SFmul_nan_r. Qed.
Lemma sub_nan_l64 (a b : float) : nan64 a -> nan64 (a - b)%float.
Proof. spec64. intros ->. apply SFsub_nan_l. Qed.
Lemma sub_nan_r64 (a b : float) : nan64 b -> nan64 (a - b)%float.
Proof. spec64. intros ->. apply SFsub_nan_r. Qed.
Lemma add_nan_l64 (a b : float) : nan64 a -> nan64 (a + b)%float.
Proof. spec64. intros ->. apply SFadd_nan_l. Qed.

Lemma mul_zero_any64 (a b : float) : zero64 a -> zon64 (a * b)%float.
Proof. spec64. apply SFmul_zero_any. Qed.
Lemma sub_zon64 (a b : float) : zon64 a -> zon64 b -> zon64 (a - b)%float.
Proof. spec64. apply SFsub_zero_or_nan. Qed.
Lemma add_zon64 (a b : float) : zon64 a -> zon64 b -> zon64 (a + b)%float.
Proof. spec64. apply SFadd_zero_or_nan. Qed.

Lemma ltb_zon64 (a b : float) : zon64 a -> zero64 b -> (a <? b)%float = false.
Proof. unfold zon64, zero64. rewrite ltb_spec. apply SFltb_zero_or_nan. Qed.
Lemma ltb_nan_r64 (a b : float) : nan64 b -> (a <? b)%float = false.
Proof. unfold nan64. rewrite ltb_spec. intros ->. apply SFltb_nan_r. Qed.

(** The same predicates on the three coordinates of a point. *)
Definition zero3 (p : Point3D float) : Prop := zero64 (x p) /\ zero64 (y p) /\ zero64 (z p).
Definition fin3 (p : Point3D float) : Prop := fin64 (x p) /\ fin64 (y p) /\ fin64 (z p).
Definition nan3 (p : Point3D float) : Prop := nan64 (x p) /\ nan64 (y p) /\ nan64 (z p).

#[export] Hint Resolve zero64_fin zero64_0 mul_zero_l64 mul_zero_r64 sub_zero64 add_zero64
  sqrt_zero64 div_zero_zero64 sub_self64 mul_nan_l64 mul_nan_r64 sub_nan_l64 sub_nan_r64
  add_nan_l64 mul_zero_any64 sub_zon64 add_zon64 : geo.

(** ** The program on [double] *)

(** C20: [distanceTo] is symmetric on [double], bit for bit, for every input
    including infinities and NaN: [pow(a - b, 2)] and [pow(b - a, 2)] are the
    same double. *)
Theorem distanceTo_sym_binary64 (p q : Point3D float) : distanceTo p q = distanceTo q p.
Proof.
  unfold distanceTo, pow2. cbn [s_add s_sub s_mul s_sqrt Scalar_float].
  rewrite (sub_swap_sq_b64 (x p) (x q)), (sub_swap_sq_b64 (y p) (y q)),
    (sub_swap_sq_b64 (z p) (z q)).
  reflexivity.
Qed.

(** C24: [dotProduct] is commutative on [double]. *)
Theorem dotProduct_comm_binary64 (a b : Point3D float) : dotProduct a b = dotProduct b a.
Proof.
  unfold dotProduct. cbn [s_add s_mul Scalar_float].
  rewrite (mul_comm_b64 (x a)), (mul_comm_b64 (y a)), (mul_comm_b64 (z a)). reflexivity.
Qed.

(** ** Zero vectors and NaN on [double] *)

Lemma cross_zero_l64 (a b : Point3D float) : zero3 a -> fin3 b -> zero3 (cross a b).
Proof.
  unfold zero3, fin3, cross. cbn [s_sub s_mul Scalar_float x y z].
  intros (? & ? & ?) (? & ? & ?). repeat split; auto with geo.
Qed.

Lemma cross_zero_r64 (a b : Point3D float) : fin3 a -> zero3 b -> zero3 (cross a b).
Proof.
  unfold zero3, fin3, cross. cbn [s_sub s_mul Scalar_float x y z].
  intros (? & ? & ?) (? & ? & ?). repeat split; auto with geo.
Qed.

Lemma sub_self3 (p : Point3D float) : fin3 p -> zero3 (sub p p).
Proof.
  unfold zero3, fin3, sub. cbn [s_sub Scalar_float x y z].
  intros (? & ? & ?). repeat split; auto with geo.
Qed.

(** The length of a zero vector is a zero, so [normalVector] divides zero by
    zero and is NaN. *)
Lemma normalVector_nan64 (a b : Point3D float) : zero3 (cross a b) -> nan3 (normalVector a b).
Proof.
  unfold normalVector. set (c := cross a b). clearbody c. intros (Hx & Hy & Hz).
  assert (Hn : zero64 (distanceTo c origin)).
  { unfold distanceTo, pow2, origin, point_of_Z.
    cbn [s_of_Z s_add s_sub s_mul s_sqrt Scalar_float x y z]. auto 7 with geo. }
  unfold div, nan3. cbn [s_div Scalar_float x y z]. auto with geo.
Qed.

(** A NaN third argument makes [determinant] NaN. *)
Lemma determinant_nan64 (a b c : Point3D float) : nan3 c -> nan64 (determinant a b c).
Proof.
  unfold determinant. cbn [s_add s_sub s_mul Scalar_float]. intros (Hx & Hy & Hz).
  auto 8 with geo.
Qed.

(** A zero first argument makes [determinant] a zero or NaN. *)
Lemma determinant_zero_l64 (a b c : Point3D float) : zero3 a -> zon64 (determinant a b c).
Proof.
  unfold determinant. cbn [s_add s_sub s_mul Scalar_float]. intros (Hx & Hy & Hz).
  auto 8 with geo.
Qed.

(** A zero second or third argument, the others finite, makes
    [determinant] a zero. *)
Lemma zero_zon64 (a : float) : zero64 a -> zon64 a.
Proof. unfold zero64, zon64. destruct (Prim2SF a); cbn; tauto. Qed.

Lemma determinant_zero_m64 (a b c : Point3D float) :
  fin3 a -> zero3 b -> fin3 c -> zon64 (determinant a b c).
Proof.
  unfold determinant, fin3, zero3. cbn [s_add s_sub s_mul Scalar_float].
  intros (? & ? & ?) (? & ? & ?) (? & ? & ?). apply zero_zon64. auto 10 with geo.
Qed.

Lemma determinant_zero_r64 (a b c : Point3D float) :
  fin3 a -> fin3 b -> zero3 c -> zon64 (determinant a b c).
Proof.
  unfold determinant, fin3, zero3. cbn [s_add s_sub s_mul Scalar_float].
  intros (? & ? & ?) (? & ? & ?) (? & ? & ?). apply zero_zon64. auto 10 with geo.
Qed.

Lemma sign_zero_cross64 (a b : Point3D float) : zero3 (cross a b) -> sign a b = (-1)%Z.
Proof.
  intros H. unfold sign. cbn [s_ltb s_of_Z Scalar_float].
  rewrite ltb_nan_r64; [reflexivity|]. apply determinant_nan64, normalVector_nan64, H.
Qed.

(** C21: On [double], [sign a b] is [-1] whenever [cross a b] is a zero vector
    (of zeros of any sign), whatever [a] and [b]: [normalVector] is then
    [0 / 0], NaN, and NaN propagates through [determinant] to the test
    [> 0], which fails. *)
Theorem sign_cross_zero_binary64 (a b : Point3D float) :
  zero3 (cross a b) -> sign a b = (-1)%Z.
Proof. apply sign_zero_cross64. Qed.

Lemma sign_cross_zero_binary64_witness :
  sign (point_of_Z (F:=float) 0 0 0) (point_of_Z 1 2 3) = (-1)%Z.
Proof. apply sign_cross_zero_binary64. vm_compute. tauto. Defined.

(** [u] is the IEEE negation of [v], or both are zeros (of the same sign). *)
Definition neg64 (u v : float) : Prop :=
  Prim2SF u = SFopp (Prim2SF v) \/ (zero64 u /\ zero64 v).

Lemma neg64_sub (u v : float) : neg64 (v - u)%float (u - v)%float.
Proof. unfold neg64, zero64. rewrite !sub_spec. apply SFsub_swap. Qed.

(** [b - a] is finite when [a - b] is. *)
Lemma fin64_sub_swap (a b : float) : fin64 (a - b)%float -> fin64 (b - a)%float.
Proof.
  unfold fin64. destruct (neg64_sub a b) as [->|[Hz _]]; [|intros _; apply zero64_fin, Hz].
  destruct (Prim2SF (a - b)%float); cbn; tauto.
Qed.

Lemma fin3_sub_swap (p q : Point3D float) : fin3 (sub p q) -> fin3 (sub q p).
Proof.
  unfold fin3, sub. cbn [s_sub Scalar_float x y z].
  intros (? & ? & ?). repeat split; apply fin64_sub_swap; assumption.
Qed.

(** [sign] is [-1] as soon as one of its arguments is a zero vector and
    the other is finite. *)
Lemma sign_zero_l64 (a b : Point3D float) : zero3 a -> fin3 b -> sign a b = (-1)%Z.
Proof. intros Ha Hb. apply sign_zero_cross64, cross_zero_l64; assumption. Qed.

Lemma sign_zero_r64 (a b : Point3D float) : fin3 a -> zero3 b -> sign a b = (-1)%Z.
Proof. intros Ha Hb. apply sign_zero_cross64, cross_zero_r64; assumption. Qed.

(** C23: [cross] is anticommutative on [double]: every coordinate of
    [cross b a] is the exact negation of the same coordinate of
    [cross a b], except that the two may be the same zero, [+0] where the
    exact model has [-0]; no rounding error appears. *)
Theorem cross_anticomm_binary64 (a b : Point3D float) :
  neg64 (x (cross b a)) (x (cross a b)) /\ neg64 (y (cross b a)) (y (cross a b)) /\
  neg64 (z (cross b a)) (z (cross a b)).
Proof.
  unfold cross. cbn [s_sub s_mul Scalar_float x y z].
  rewrite (mul_comm_b64 (y b)), (mul_comm_b64 (z b) (y a)), (mul_comm_b64 (z b) (x a)),
    (mul_comm_b64 (x b) (z a)), (mul_comm_b64 (x b) (y a)), (mul_comm_b64 (y b) (x a)).
  repeat split; apply neg64_sub.
Qed.
