(* ===== verification/Triangle.v ===== *)
(** * Triangle: the class [Triangle] of [src/main.cpp] (lines 86-169)

    A triangle is the record of its three corners [p1 p2 p3].  [contains],
    [area], [sideLength] and [isEquilateral] are functions of it;
    [improveEquilateral], which may assign [*this], returns the pair
    (receiver after the call, returned triangle) and runs its [while] loop
    through [Prelude.while_loop], so that its termination is a theorem and
    not an assumption.  [std::max] and [std::min] over an initializer list
    are [max3] and [min3], which scan the list as [std::max_element] and
    [std::min_element] do.  [print] is output only and is not modelled.
    [scale_triangle] (all corners times [k] by [Point3D.mul]) is not code of
    the program; it states the scale invariance of [isEquilateral]. *)

From Stdlib Require Import ZArith Reals Lra.
From S2P Require Import Prelude Scalars Point3D Geometry.

Record Triangle (F : Type) : Type := mkTriangle {
  p1 : Point3D F;
  p2 : Point3D F;
  p3 : Point3D F
}.
Arguments mkTriangle {F} _ _ _.
Arguments p1 {F} _.
Arguments p2 {F} _.
Arguments p3 {F} _.

Section TriangleOps.
Context {F : Type} `{Scalar F}.
Local Open Scope scalar_scope.

(** [contains(p)] *)
Definition contains (t : Triangle F) (p : Point3D F) : bool :=
  let v0 := sub (p1 t) p in
  let v1 := sub (p2 t) p in
  let v2 := sub (p3 t) p in
  if determinant v0 v1 v2 <? s_of_Z 0 then false
  else if (negb (Z.eqb (sign v0 v1) (sign v1 v2)) || negb (Z.eqb (sign v1 v2) (sign v2 v0)))%bool
  then false
  else true.

(** [area()] *)
Definition area (t : Triangle F) : F :=
  let v0 := sub (p2 t) (p1 t) in
  let v1 := sub (p3 t) (p1 t) in
  distanceTo (cross v0 v1) origin / s_of_Z 2.

(** [sideLength(a, b)] *)
Definition sideLength (t : Triangle F) (a b : Point3D F) : F := distanceTo a b.

(** [std::max({a, b, c})]: the first largest element, found by
    [std::max_element], which moves to a later element only when the
    current maximum is [<] it. *)
Definition max3 (a b c : F) : F :=
  let m := if a <? b then b else a in
  if m <? c then c else m.

(** [std::min({a, b, c})]: [std::min_element], which moves to a later
    element only when it is [<] the current minimum. *)
Definition min3 (a b c : F) : F :=
  let m := if b <? a then b else a in
  if c <? m then c else m.

(** [isEquilateral()]: the relative deviation [(max - min) / max] of the
    three side lengths. *)
Definition isEquilateral (t : Triangle F) : F :=
  let side1 := sideLength t (p1 t) (p2 t) in
  let side2 := sideLength t (p2 t) (p3 t) in
  let side3 := sideLength t (p3 t) (p1 t) in
  let maxSide := max3 side1 side2 side3 in
  let minSide := min3 side1 side2 side3 in
  (maxSide - minSide) / maxSide.

(** The local state of [improveEquilateral]: the receiver [*this], the copy
    [improvedTriangle] and [deviation]. *)
Definition improve_state : Type := Triangle F * Triangle F * F.

(** The condition [while (deviation > tolerance)]. *)
Definition improve_cond (tolerance : F) (st : improve_state) : bool :=
  let '(_, _, deviation) := st in tolerance <? deviation.

(** After the loop: [return improvedTriangle], the receiver as it is. *)
Definition improve_exit (st : improve_state) : Triangle F * Triangle F :=
  let '(self, improvedTriangle, _) := st in (self, improvedTriangle).

(** One iteration of the [while] loop of [improveEquilateral]: the three
    side lengths and [maxSide] are computed (and never used), then the body
    returns: with [inplace] it assigns [*this = improvedTriangle] and
    returns [*this], otherwise it returns [improvedTriangle]. *)
Definition improveEquilateral_body (inplace : bool) (st : improve_state)
    : option (step improve_state (Triangle F * Triangle F)) :=
  let '(self, improvedTriangle, deviation) := st in
  let side1 := sideLength improvedTriangle (p1 improvedTriangle) (p2 improvedTriangle) in
  let side2 := sideLength improvedTriangle (p2 improvedTriangle) (p3 improvedTriangle) in
  let side3 := sideLength improvedTriangle (p3 improvedTriangle) (p1 improvedTriangle) in
  let maxSide := max3 side1 side2 side3 in
  if inplace then
    let self' := improvedTriangle in
    Some (Return (self', self'))
  else Some (Return (self, improvedTriangle)).

(** [improveEquilateral(delta, tolerance, inplace)]: the pair (receiver
    after the call, returned triangle), or [None] when [fuel] iterations of
    the loop do not suffice.  [delta] is a parameter the C++ body never
    reads. *)
Definition improveEquilateral (fuel : nat) (self : Triangle F) (delta tolerance : F)
    (inplace : bool) : option (Triangle F * Triangle F) :=
  let improvedTriangle := self in
  let deviation := isEquilateral improvedTriangle in
  while_loop fuel (improve_cond tolerance) (improveEquilateral_body inplace) improve_exit
    (self, improvedTriangle, deviation).

(** The default arguments [delta = 1e-4] and [tolerance = 1e-3]; the
    quotients are correctly rounded, hence the same doubles as the
    literals. *)
Definition default_delta : F := s_of_Z 1 / s_of_Z 10000.
Definition default_tolerance : F := s_of_Z 1 / s_of_Z 1000.

(** [t.improveEquilateral()] with its default arguments. *)
Definition improveEquilateral_default (fuel : nat) (self : Triangle F)
    : option (Triangle F * Triangle F) :=
  improveEquilateral fuel self default_delta default_tolerance true.

(** The triangle with every corner multiplied by [k] with [operator*], as
    a caller scales a triangle. *)
Definition scale_triangle (t : Triangle F) (k : F) : Triangle F :=
  mkTriangle (mul (p1 t) k) (mul (p2 t) k) (mul (p3 t) k).

End TriangleOps.

(** ** Exact model: [contains] *)

Open Scope R_scope.

Section ContainsR.
Variables (t : Triangle R) (p : Point3D R).

(** The vectors from [p] to the corners, as [contains] computes them. *)
Let v0 := sub (p1 t) p.
Let v1 := sub (p2 t) p.
Let v2 := sub (p3 t) p.

(** The edge cross product of the triangle is the sum of the three cross
    products [contains] feeds to [sign]. *)
Lemma cross_edges_sum :
  cross (sub (p2 t) (p1 t)) (sub (p3 t) (p1 t))
  = add (add (cross v0 v1) (cross v1 v2)) (cross v2 v0).
Proof. subst v0 v1 v2. point_ring. Qed.

Lemma contains_R :
  contains t p = true <->
  0 <= determinant v0 v1 v2 /\
  (cross v0 v1 <> origin <-> cross v1 v2 <> origin) /\
  (cross v1 v2 <> origin <-> cross v2 v0 <> origin).
Proof.
  unfold contains. fold v0 v1 v2. rsimpl. rewrite !sign_R.
  destruct (Rltb (determinant v0 v1 v2) (IZR 0)) eqn:E.
  - apply Rltb_true in E. split; [discriminate|]. intros [Hd _]. lra.
  - apply Rltb_false in E.
    destruct (point_eq_dec_R (cross v0 v1) origin), (point_eq_dec_R (cross v1 v2) origin),
      (point_eq_dec_R (cross v2 v0) origin); cbn; split; intuition (try congruence; try lra).
Qed.

Lemma contains_nondegenerate_R :
  cross (sub (p2 t) (p1 t)) (sub (p3 t) (p1 t)) <> origin ->
  (contains t p = true <->
   0 <= determinant v0 v1 v2 /\
   cross v0 v1 <> origin /\ cross v1 v2 <> origin /\ cross v2 v0 <> origin).
Proof.
  intros Hnd. rewrite contains_R. rewrite cross_edges_sum in Hnd.
  destruct (point_eq_dec_R (cross v0 v1) origin) as [H01|H01];
  [ assert (cross v1 v2 <> origin \/ cross v2 v0 <> origin)
      by (destruct (point_eq_dec_R (cross v1 v2) origin) as [H12|H12]; [right|left; exact H12];
          intros H20; apply Hnd; rewrite H01, H12, H20; point_ring)
  | ]; intuition.
Qed.

(** C7: What [contains] decides, in exact arithmetic: the determinant pre-check
    and the equality of three [sign]s, each of which only says whether two
    corner vectors are parallel. *)
Theorem contains_iff :
  contains t p = true <->
  0 <= determinant v0 v1 v2 /\
  (cross v0 v1 <> origin <-> cross v1 v2 <> origin) /\
  (cross v1 v2 <> origin <-> cross v2 v0 <> origin).
Proof. exact contains_R. Qed.

(** C8: For a triangle that is not degenerate the three vectors cannot all be
    pairwise parallel, so [contains] accepts exactly the points with a
    non-negative determinant that lie on none of the three lines through two
    corners. *)
Theorem contains_nondegenerate :
  cross (sub (p2 t) (p1 t)) (sub (p3 t) (p1 t)) <> origin ->
  (contains t p = true <->
   0 <= determinant v0 v1 v2 /\
   cross v0 v1 <> origin /\ cross v1 v2 <> origin /\ cross v2 v0 <> origin).
Proof. exact contains_nondegenerate_R. Qed.

End ContainsR.

(** The point of the plane of [t] with affine coordinates [s] and [u]:
    [p1 + (p2 - p1) * s + (p3 - p1) * u]; its barycentric coordinates are
    [(1 - s - u, s, u)]. *)
Definition in_plane (t : Triangle R) (s u : R) : Point3D R :=
  add (p1 t) (add (mul (sub (p2 t) (p1 t)) s) (mul (sub (p3 t) (p1 t)) u)).

(** A multiple of a non-zero vector is zero only for the factor [0]. *)
Lemma mul_origin_iff (w : Point3D R) (k : R) : w <> origin -> (mul w k = origin <-> k = 0).
Proof.
  intros Hw. split.
  - intros Hk. destruct (Req_dec k 0) as [|Hk0]; [assumption|]. exfalso. apply Hw.
    destruct w as [wx wy wz]. unfold mul, origin, point_of_Z in *. rsimpl. cbn [x y z] in Hk.
    injection Hk as Hx Hy Hz. apply Rmult_integral in Hx, Hy, Hz.
    f_equal; [destruct Hx|destruct Hy|destruct Hz]; lra.
  - intros ->. point_ring.
Qed.

Section ContainsPlane.
Variables (t : Triangle R) (s u : R).
Let w := cross (sub (p2 t) (p1 t)) (sub (p3 t) (p1 t)).
Let p := in_plane t s u.

(** Points of the plane pass the determinant pre-check of [contains]. *)
Lemma determinant_in_plane :
  determinant (sub (p1 t) p) (sub (p2 t) p) (sub (p3 t) p) = 0.
Proof. subst p. unfold in_plane. geo_ring. Qed.

Lemma cross01_in_plane : cross (sub (p1 t) p) (sub (p2 t) p) = mul w u.
Proof. subst p w. unfold in_plane. point_ring. Qed.

Lemma cross12_in_plane : cross (sub (p2 t) p) (sub (p3 t) p) = mul w (1 - s - u).
Proof. subst p w. unfold in_plane. point_ring. Qed.

Lemma cross20_in_plane : cross (sub (p3 t) p) (sub (p1 t) p) = mul w s.
Proof. subst p w. unfold in_plane. point_ring. Qed.

Lemma contains_in_plane_R :
  w <> origin -> (contains t p = true <-> s <> 0 /\ u <> 0 /\ s + u <> 1).
Proof.
  intros Hw. rewrite contains_nondegenerate_R by exact Hw.
  rewrite determinant_in_plane, cross01_in_plane, cross12_in_plane, cross20_in_plane.
  rewrite !(mul_origin_iff w) by exact Hw.
  split; [intros (_ & Hu & Hsu & Hs)|intros (Hs & Hu & Hsu); repeat split]; lra.
Qed.

(** C1: On the plane of a non-degenerate triangle, [contains] accepts a point
    exactly when none of its three barycentric coordinates is zero: every
    point of the plane off the three lines through two corners, inside the
    triangle or not. *)
Theorem contains_in_plane :
  w <> origin -> (contains t p = true <-> s <> 0 /\ u <> 0 /\ s + u <> 1).
Proof. exact contains_in_plane_R. Qed.

End ContainsPlane.

(** ** Exact model: [area] *)

(** The cross product of the two edges from [p1] that [area] measures. *)
Definition edge_cross (t : Triangle R) : Point3D R :=
  cross (sub (p2 t) (p1 t)) (sub (p3 t) (p1 t)).

Lemma area_R (t : Triangle R) : area t = sqrt (dotProduct (edge_cross t) (edge_cross t)) / 2.
Proof. unfold area. rewrite norm_R. reflexivity. Qed.

(** [area] does not depend on which corner is [p1]: rotating the corners
    leaves it unchanged. *)
Theorem area_rotate (t : Triangle R) : area (mkTriangle (p2 t) (p3 t) (p1 t)) = area t.
Proof.
  rewrite !area_R. unfold edge_cross. cbn [p1 p2 p3].
  replace (cross (sub (p3 t) (p2 t)) (sub (p1 t) (p2 t)))
    with (cross (sub (p2 t) (p1 t)) (sub (p3 t) (p1 t))) by point_ring.
  reflexivity.
Qed.

(** C18: [area] is zero exactly for degenerate triangles (collinear corners). *)
Theorem area_zero_iff (t : Triangle R) : area t = 0 <-> edge_cross t = origin.
Proof.
  rewrite area_R. split.
  - intros H0. apply dot_self_zero, sqrt_eq_0; [apply dot_self_nonneg|lra].
  - intros ->. unfold dotProduct, origin, point_of_Z. rsimpl. cbn [x y z].
    replace (IZR 0 * IZR 0 + IZR 0 * IZR 0 + IZR 0 * IZR 0) with 0 by ring.
    rewrite sqrt_0. lra.
Qed.

(** ** Exact model: [isEquilateral] *)

Lemma max3_Rmax (a b c : R) : max3 a b c = Rmax (Rmax a b) c.
Proof.
  unfold max3, Rmax. rsimpl. repeat (destruct_rltb || destruct Rle_dec); lra.
Qed.

Lemma min3_Rmin (a b c : R) : min3 a b c = Rmin (Rmin a b) c.
Proof.
  unfold min3, Rmin. rsimpl. repeat (destruct_rltb || destruct Rle_dec); lra.
Qed.

(** The three side lengths [isEquilateral] compares. *)
Definition side1 (t : Triangle R) : R := distanceTo (p1 t) (p2 t).
Definition side2 (t : Triangle R) : R := distanceTo (p2 t) (p3 t).
Definition side3 (t : Triangle R) : R := distanceTo (p3 t) (p1 t).

Lemma isEquilateral_R (t : Triangle R) :
  isEquilateral t =
  (Rmax (Rmax (side1 t) (side2 t)) (side3 t) - Rmin (Rmin (side1 t) (side2 t)) (side3 t))
  / Rmax (Rmax (side1 t) (side2 t)) (side3 t).
Proof. unfold isEquilateral, sideLength. rsimpl. rewrite max3_Rmax, min3_Rmin. reflexivity. Qed.

(** [max3], the scan of [std::max_element], is the maximum of the
    three values, as [Rmax] computes it. *)
Theorem max3_R (a b c : R) : max3 a b c = Rmax (Rmax a b) c.
Proof. apply max3_Rmax. Qed.

(** [min3] is the minimum of the three values, as [Rmin] computes it. *)
Theorem min3_R (a b c : R) : min3 a b c = Rmin (Rmin a b) c.
Proof. apply min3_Rmin. Qed.

Lemma distanceTo_pos (p q : Point3D R) : p <> q -> 0 < distanceTo p q.
Proof.
  intros Hpq. destruct (distanceTo_nonneg p q) as [|H0]; [assumption|].
  exfalso. apply Hpq, distanceTo_zero_iff. symmetry. exact H0.
Qed.

(** The relative spread [(M - m) / M] of a non-negative minimum [m] and a
    positive maximum [M] lies in [[0, 1]], is [0] exactly when [m = M] and is
    below [1] exactly when [m > 0]. *)
Lemma rel_dev_facts (M m : R) : 0 < M -> 0 <= m <= M ->
  0 <= (M - m) / M <= 1 /\ ((M - m) / M = 0 <-> m = M) /\ (0 < m -> (M - m) / M < 1).
Proof.
  intros HM Hm. assert (0 < / M) by (apply Rinv_0_lt_compat; lra).
  assert (M * / M = 1) by (field; lra). unfold Rdiv.
  repeat split; nra.
Qed.

Lemma max_min3_eq (a b c : R) : Rmin (Rmin a b) c = Rmax (Rmax a b) c <-> a = b /\ b = c.
Proof.
  unfold Rmax, Rmin. split; [intros H0|intros [-> ->]]; repeat destruct Rle_dec; lra.
Qed.

Section IsEquilateralR.
Variable t : Triangle R.
Hypothesis not_point : ~ (p1 t = p2 t /\ p2 t = p3 t).

Lemma sides_range :
  0 < Rmax (Rmax (side1 t) (side2 t)) (side3 t) /\
  0 <= Rmin (Rmin (side1 t) (side2 t)) (side3 t) <= Rmax (Rmax (side1 t) (side2 t)) (side3 t).
Proof.
  pose proof (distanceTo_nonneg (p1 t) (p2 t)). pose proof (distanceTo_nonneg (p2 t) (p3 t)).
  pose proof (distanceTo_nonneg (p3 t) (p1 t)).
  assert (0 < side1 t \/ 0 < side2 t) as Hpos.
  { destruct (point_eq_dec_R (p1 t) (p2 t)) as [E12|E12].
    - right. apply distanceTo_pos. intros E23. exact (not_point (conj E12 E23)).
    - left. apply distanceTo_pos, E12. }
  unfold side1, side2, side3 in *. unfold Rmax, Rmin. repeat destruct Rle_dec; lra.
Qed.

(** C17: [isEquilateral] is a deviation between [0] and [1]. *)
Theorem isEquilateral_range : 0 <= isEquilateral t <= 1.
Proof.
  rewrite isEquilateral_R. destruct sides_range as [HM Hm].
  apply (rel_dev_facts _ _ HM Hm).
Qed.

(** C16: [isEquilateral] is [0] exactly for equilateral triangles. *)
Theorem isEquilateral_zero_iff :
  isEquilateral t = 0 <-> side1 t = side2 t /\ side2 t = side3 t.
Proof.
  rewrite isEquilateral_R, <- max_min3_eq. destruct sides_range as [HM Hm].
  apply (rel_dev_facts _ _ HM Hm).
Qed.

(** [isEquilateral] stays below [1] as long as no two corners coincide. *)
Theorem isEquilateral_lt_1 :
  p1 t <> p2 t -> p2 t <> p3 t -> p3 t <> p1 t -> isEquilateral t < 1.
Proof.
  intros H12 H23 H31. rewrite isEquilateral_R. destruct sides_range as [HM Hm].
  apply (rel_dev_facts _ _ HM Hm).
  pose proof (distanceTo_pos _ _ H12). pose proof (distanceTo_pos _ _ H23).
  pose proof (distanceTo_pos _ _ H31).
  unfold side1, side2, side3, Rmin. repeat destruct Rle_dec; lra.
Qed.

End IsEquilateralR.

(** The extremes of three reals do not depend on their order. *)
Lemma max_min3_perm (a b c : R) :
  Rmax (Rmax b c) a = Rmax (Rmax a b) c /\ Rmin (Rmin b c) a = Rmin (Rmin a b) c /\
  Rmax (Rmax c b) a = Rmax (Rmax a b) c /\ Rmin (Rmin c b) a = Rmin (Rmin a b) c.
Proof. unfold Rmax, Rmin. repeat split; repeat destruct Rle_dec; lra. Qed.

(** [isEquilateral] is a property of the triangle, not of the order of its
    corners: rotating them or reversing their orientation leaves it
    unchanged. *)
Theorem isEquilateral_perm (t : Triangle R) :
  isEquilateral (mkTriangle (p2 t) (p3 t) (p1 t)) = isEquilateral t /\
  isEquilateral (mkTriangle (p1 t) (p3 t) (p2 t)) = isEquilateral t.
Proof.
  pose proof (max_min3_perm (side1 t) (side2 t) (side3 t)) as (H1 & H2 & H3 & H4).
  rewrite !isEquilateral_R. unfold side1, side2, side3 in *. cbn [p1 p2 p3]. split.
  - rewrite H1, H2. reflexivity.
  - rewrite (distanceTo_comm (p1 t) (p3 t)), (distanceTo_comm (p3 t) (p2 t)),
      (distanceTo_comm (p2 t) (p1 t)), H3, H4. reflexivity.
Qed.

(** Two points whose squared distance is [k ^ 2] times that of two others
    are [k] times as far apart, for [k >= 0]. *)
Lemma distanceTo_dist2_scale (p q p' q' : Point3D R) (k : R) :
  0 <= k -> dist2 p' q' = k ^ 2 * dist2 p q -> distanceTo p' q' = k * distanceTo p q.
Proof.
  intros Hk Hd. rewrite !distanceTo_R, Hd.
  rewrite sqrt_mult by (apply pow2_ge_0 || apply dist2_nonneg).
  rewrite sqrt_pow2 by exact Hk. reflexivity.
Qed.

(** Scaling both points scales their distance. *)
Lemma distanceTo_mul (p q : Point3D R) (k : R) :
  0 <= k -> distanceTo (mul p k) (mul q k) = k * distanceTo p q.
Proof.
  intros Hk. apply distanceTo_dist2_scale; [exact Hk|]. unfold dist2, mul; rsimpl; cbn [x y z]; ring.
Qed.

Lemma Rmax_Rmin_scale (k a b : R) :
  0 < k -> Rmax (k * a) (k * b) = k * Rmax a b /\ Rmin (k * a) (k * b) = k * Rmin a b.
Proof. intros Hk. unfold Rmax, Rmin. split; repeat destruct Rle_dec; nra. Qed.

(** The spread ratio does not see a common positive factor. *)
Lemma rel_dev_scale (k M m : R) : 0 < k -> (k * M - k * m) / (k * M) = (M - m) / M.
Proof.
  intros Hk. destruct (Req_dec M 0) as [->|HM].
  - rewrite Rmult_0_r. unfold Rdiv. rewrite Rinv_0. ring.
  - field. split; lra.
Qed.

(** Two triangles whose sides are in the same positive ratio [k] have the
    same deviation. *)
Lemma isEquilateral_sides_scale (t t' : Triangle R) (k : R) :
  0 < k -> side1 t' = k * side1 t -> side2 t' = k * side2 t -> side3 t' = k * side3 t ->
  isEquilateral t' = isEquilateral t.
Proof.
  intros Hk H1 H2 H3. rewrite !isEquilateral_R, H1, H2, H3.
  destruct (Rmax_Rmin_scale k (side1 t) (side2 t) Hk) as [-> ->].
  destruct (Rmax_Rmin_scale k (Rmax (side1 t) (side2 t)) (side3 t) Hk) as [-> _].
  destruct (Rmax_Rmin_scale k (Rmin (side1 t) (side2 t)) (side3 t) Hk) as [_ ->].
  apply rel_dev_scale, Hk.
Qed.

(** C22: [isEquilateral] is a shape measure: multiplying every corner by the
    same positive factor leaves it unchanged. *)
Theorem isEquilateral_scale (t : Triangle R) (k : R) :
  0 < k -> isEquilateral (scale_triangle t k) = isEquilateral t.
Proof.
  intros Hk. apply (isEquilateral_sides_scale _ _ k Hk);
    unfold side1, side2, side3, scale_triangle; cbn [p1 p2 p3]; apply distanceTo_mul; lra.
Qed.

Close Scope R_scope.

(** ** [improveEquilateral], for every scalar type *)

Section ImproveEquilateral.
Context {F : Type} `{Scalar F}.

Lemma improveEquilateral_ret (fuel : nat) (t : Triangle F) (delta tolerance : F)
    (inplace : bool) :
  improveEquilateral (S fuel) t delta tolerance inplace = Some (t, t).
Proof.
  unfold improveEquilateral. cbn.
  destruct (s_ltb tolerance (isEquilateral t)), inplace; reflexivity.
Qed.

(** C4: [improveEquilateral] always terminates after at most one iteration of
    its loop, and it changes nothing: whatever [delta], [tolerance] and
    [inplace], the receiver is left as it was and the returned triangle is
    a copy of it.  The loop body returns before it could adjust a corner. *)
Theorem improveEquilateral_identity (fuel : nat) (t : Triangle F) (delta tolerance : F)
    (inplace : bool) :
  improveEquilateral (S fuel) t delta tolerance inplace = Some (t, t).
Proof. apply improveEquilateral_ret. Qed.

(** Liveness of the loop of [improveEquilateral], in its small-step
    semantics: from the initial state (receiver, copy, deviation), every
    execution of the [while] loop reaches the end of the method, with the
    receiver and the returned triangle both equal to the triangle it was
    called on, whatever [delta], [tolerance] and [inplace]. *)
Theorem improveEquilateral_eventually (t : Triangle F) (delta tolerance : F) (inplace : bool) :
  eventually (loop_step (improve_cond tolerance) (improveEquilateral_body inplace) improve_exit)
    (fun c => c = Finished (t, t)) (Running (t, t, isEquilateral t)).
Proof. exact (while_loop_eventually _ _ _ 1 _ _ (improveEquilateral_ret 0 t delta tolerance inplace)). Qed.

End ImproveEquilateral.

(** ** Witnesses at the triangle of the spec, [(0,0,0), (4,0,0), (0,4,0)] *)

Open Scope R_scope.

Definition spec_triangle_R : Triangle R :=
  mkTriangle (mkPoint3D 0 0 0) (mkPoint3D 4 0 0) (mkPoint3D 0 4 0).

(** [(5,5,0)], outside the triangle, is [in_plane spec_triangle_R (5/4) (5/4)]
    and [contains] accepts it. *)
Lemma contains_in_plane_witness :
  contains spec_triangle_R (in_plane spec_triangle_R (5/4) (5/4)) = true.
Proof.
  refine (proj2 (contains_in_plane spec_triangle_R (5/4) (5/4) _) _).
  - unfold spec_triangle_R. cbn [p1 p2 p3]. point_neq.
  - lra.
Defined.

(** [contains] accepts [(1,1,0)], inside the triangle. *)
Lemma contains_nondegenerate_witness :
  contains spec_triangle_R (mkPoint3D 1 1 0) = true.
Proof.
  refine (proj2 (contains_nondegenerate spec_triangle_R (mkPoint3D 1 1 0) _) _).
  - unfold spec_triangle_R. cbn [p1 p2 p3]. point_neq.
  - unfold spec_triangle_R. cbn [p1 p2 p3]. repeat split; [|point_neq..].
    unfold determinant, sub. rsimpl. cbn [x y z]. lra.
Defined.

Lemma isEquilateral_range_witness : 0 <= isEquilateral spec_triangle_R <= 1.
Proof.
  apply isEquilateral_range. unfold spec_triangle_R. cbn [p1 p2 p3].
  intros [H12 _]. revert H12. point_neq.
Defined.

Lemma isEquilateral_zero_iff_witness :
  isEquilateral spec_triangle_R = 0 <->
  side1 spec_triangle_R = side2 spec_triangle_R /\ side2 spec_triangle_R = side3 spec_triangle_R.
Proof.
  apply isEquilateral_zero_iff. unfold spec_triangle_R. cbn [p1 p2 p3].
  intros [H12 _]. revert H12. point_neq.
Defined.

Lemma isEquilateral_lt_1_witness : isEquilateral spec_triangle_R < 1.
Proof.
  apply isEquilateral_lt_1; unfold spec_triangle_R; cbn [p1 p2 p3].
  - intros [H12 _]. revert H12. point_neq.
  - point_neq.
  - point_neq.
  - point_neq.
Defined.

Lemma isEquilateral_scale_witness :
  isEquilateral (scale_triangle spec_triangle_R 3) = isEquilateral spec_triangle_R.
Proof. apply isEquilateral_scale. lra. Defined.
