(* ===== verification/Triangles.v ===== *)
(** * Triangles: the class [Triangles] of [src/main.cpp] (lines 171-192)

    The [std::vector<Triangle>] is a list; [triangles[i]] is stdpp's lookup
    [ts !! i] and an assignment [triangles[i] = e] is stdpp's list insert
    [<[i := e]> ts].  [operator[]] out of range is undefined behaviour in C++:
    the model returns [None] there, and the theorems show it never happens.
    [connectClosestPoints] is its three nested [for] loops, each a
    [Prelude.for_loop] that re-reads [triangles.size()] at every test, with
    one fuel bound shared by the three loops and the [improveEquilateral]
    calls.  The statement [triangles[i] = triangles[i].improveEquilateral()]
    first lets the call assign element [i] through [*this], then assigns the
    returned copy to it.  The loop nest [connect_loops] takes the body of
    its innermost loop as a parameter, so that its equivalence with a run
    over the reference index list [triples] is proved once for every body
    that keeps the size of the vector. *)

From Stdlib Require Import ZArith PrimFloat.
From stdpp Require Import base list sorting.
From S2P Require Import Prelude Scalars Point3D Geometry Triangle.

Record Triangles (F : Type) : Type := mkTriangles { triangles : list (Triangle F) }.
Arguments mkTriangles {F} _.
Arguments triangles {F} _.

Section TrianglesOps.
Context {F : Type} `{Scalar F}.

(** [addTriangle(triangle)]: [push_back]. *)
Definition addTriangle (s : Triangles F) (triangle : Triangle F) : Triangles F :=
  mkTriangles (triangles s ++ [triangle]).

(** [triangles[i] = triangles[i].improveEquilateral();] *)
Definition improve_at (fuel : nat) (i : nat) (ts : list (Triangle F))
    : option (list (Triangle F)) :=
  match ts !! i with
  | None => None
  | Some ti =>
      match improveEquilateral_default fuel ti with
      | None => None
      | Some (self', result) => Some (<[i := result]> (<[i := self']> ts))
      end
  end.

(** The body of the innermost loop: the test
    [triangles[i].contains(triangles[j].p1) && triangles[i].contains(triangles[k].p1)]
    (with the short circuit of [&&]) and, when it holds, the three
    assignments in the order of the code. *)
Definition connect_body (fuel i j k : nat) (ts : list (Triangle F))
    : option (list (Triangle F)) :=
  match ts !! i, ts !! j with
  | Some ti, Some tj =>
      if contains ti (p1 tj) then
        match ts !! k with
        | Some tk =>
            if contains ti (p1 tk) then
              match improve_at fuel i ts with
              | None => None
              | Some ts1 =>
                  match improve_at fuel j ts1 with
                  | None => None
                  | Some ts2 => improve_at fuel k ts2
                  end
              end
            else Some ts
        | None => None
        end
      else Some ts
  | _, _ => None
  end.

(** The body of the innermost loop, as a function of [(i, j, k)]. *)
Definition triple_body : Type := nat -> nat -> nat -> list (Triangle F) -> option (list (Triangle F)).

(** [for (int k = j + 1; k < triangles.size(); k++) body] *)
Definition loop_k (body : triple_body) (fuel i j : nat) (ts : list (Triangle F))
    : option (list (Triangle F)) :=
  for_loop fuel (fun ts => length ts) (fun k ts => body i j k ts) (S j) ts.

(** [for (int j = i + 1; j < triangles.size(); j++)] *)
Definition loop_j (body : triple_body) (fuel i : nat) (ts : list (Triangle F))
    : option (list (Triangle F)) :=
  for_loop fuel (fun ts => length ts) (fun j ts => loop_k body fuel i j ts) (S i) ts.

(** [for (int i = 0; i < triangles.size(); i++)] *)
Definition connect_loops (body : triple_body) (fuel : nat) (ts : list (Triangle F))
    : option (list (Triangle F)) :=
  for_loop fuel (fun ts => length ts) (fun i ts => loop_j body fuel i ts) 0 ts.

(** The index triples [(i, j, k)] the three loop headers of
    [connectClosestPoints] enumerate for a vector of [n] triangles, in the
    order the loops visit them: [i] from [0], [j] from [i + 1], [k] from
    [j + 1], each below [n]. *)
Definition triples (n : nat) : list (nat * nat * nat) :=
  flat_map (fun i =>
    flat_map (fun j => map (fun k => (i, j, k)) (seq (S j) (n - S j))) (seq (S i) (n - S i)))
    (seq 0 n).

(** [connectClosestPoints()]: the three loops with [connect_body]. *)
Definition connectClosestPoints (fuel : nat) (s : Triangles F) : option (Triangles F) :=
  option_map mkTriangles (connect_loops (connect_body fuel) fuel (triangles s)).

End TrianglesOps.

(** ** [connectClosestPoints] leaves the set unchanged *)

Section ConnectClosestPoints.
Context {F : Type} `{Scalar F}.

(** In range, [triangles[i] = triangles[i].improveEquilateral()] succeeds
    and leaves the vector as it was. *)
Lemma improve_at_id (fuel i : nat) (ts : list (Triangle F)) :
  i < length ts -> improve_at (S fuel) i ts = Some ts.
Proof.
  intros Hi. unfold improve_at, improveEquilateral_default.
  destruct (lookup_lt_is_Some_2 ts i Hi) as [ti Hti]. rewrite Hti.
  rewrite improveEquilateral_ret, !(list_insert_id _ _ _ Hti). reflexivity.
Qed.

Lemma connect_body_id (fuel i j k : nat) (ts : list (Triangle F)) :
  i < j -> j < k -> k < length ts -> connect_body (S fuel) i j k ts = Some ts.
Proof.
  intros Hij Hjk Hk. unfold connect_body.
  destruct (lookup_lt_is_Some_2 ts i ltac:(lia)) as [ti ->].
  destruct (lookup_lt_is_Some_2 ts j ltac:(lia)) as [tj ->].
  destruct (lookup_lt_is_Some_2 ts k Hk) as [tk ->].
  destruct (contains ti (p1 tj)), (contains ti (p1 tk)); try reflexivity.
  rewrite !improve_at_id by lia. reflexivity.
Qed.

Lemma loop_k_id (fuel i j : nat) (ts : list (Triangle F)) :
  i < j -> length ts < S fuel -> loop_k (connect_body (S fuel)) (S fuel) i j ts = Some ts.
Proof.
  intros Hij Hf. apply for_loop_id; [|lia]. intros k Hk Hlt. apply connect_body_id; lia.
Qed.

Lemma loop_j_id (fuel i : nat) (ts : list (Triangle F)) :
  length ts < S fuel -> loop_j (connect_body (S fuel)) (S fuel) i ts = Some ts.
Proof.
  intros Hf. apply for_loop_id; [|lia]. intros j Hj Hlt. apply loop_k_id; lia.
Qed.

Lemma connectClosestPoints_noop (fuel : nat) (s : Triangles F) :
  length (triangles s) < fuel -> connectClosestPoints fuel s = Some s.
Proof.
  intros Hf. destruct fuel as [|fuel]; [lia|]. destruct s as [ts]. cbn in Hf.
  unfold connectClosestPoints, connect_loops. cbn [triangles].
  rewrite for_loop_id; [reflexivity| |lia]. intros i _ _. apply loop_j_id, Hf.
Qed.

(** C5: [connectClosestPoints] terminates once the fuel exceeds the number of
    triangles, and returns the set it was given: [improveEquilateral]
    changes nothing, so the pass over all triples is a no-op. *)
Theorem connectClosestPoints_id (fuel : nat) (s : Triangles F) :
  length (triangles s) < fuel -> connectClosestPoints fuel s = Some s.
Proof. apply connectClosestPoints_noop. Qed.

(** *** Whatever the fuel, a pass that returns returns the set unchanged *)

Lemma improve_at_some (fuel i : nat) (ts ts' : list (Triangle F)) :
  improve_at fuel i ts = Some ts' -> ts' = ts.
Proof.
  unfold improve_at, improveEquilateral_default.
  destruct (ts !! i) as [ti|] eqn:Hti; [|discriminate].
  destruct fuel as [|fuel]; [cbn; discriminate|].
  rewrite improveEquilateral_ret. intros [= <-]. rewrite !(list_insert_id _ _ _ Hti). reflexivity.
Qed.

Lemma connect_body_some (fuel i j k : nat) (ts ts' : list (Triangle F)) :
  connect_body fuel i j k ts = Some ts' -> ts' = ts.
Proof.
  unfold connect_body. intros Hb. repeat case_match; simplify_eq; try reflexivity.
  repeat match goal with H : improve_at _ _ _ = Some _ |- _ => apply improve_at_some in H end.
  congruence.
Qed.

Lemma loop_k_some (fuel i j : nat) (ts ts' : list (Triangle F)) :
  loop_k (connect_body fuel) fuel i j ts = Some ts' -> ts' = ts.
Proof. apply for_loop_some_id. intros k ts0 ts1. apply connect_body_some. Qed.

Lemma loop_j_some (fuel i : nat) (ts ts' : list (Triangle F)) :
  loop_j (connect_body fuel) fuel i ts = Some ts' -> ts' = ts.
Proof. apply for_loop_some_id. intros j ts0 ts1. apply loop_k_some. Qed.

Lemma connectClosestPoints_some (fuel : nat) (s s' : Triangles F) :
  connectClosestPoints fuel s = Some s' -> s' = s.
Proof.
  unfold connectClosestPoints, connect_loops.
  destruct (for_loop _ _ _ _ _) as [ts|] eqn:Hw; [intros [= <-]|discriminate].
  apply for_loop_some_id in Hw; [destruct s; cbn in *; congruence|].
  intros i ts0 ts1. apply loop_j_some.
Qed.

End ConnectClosestPoints.

(** ** The three loops are a fold over [triples]

    For any innermost body that keeps the size of the vector, as the
    assignments of [connectClosestPoints] do. *)

Section LoopNest.
Context {F : Type} `{Scalar F}.
Variable body : triple_body (F:=F).
Hypothesis body_len :
  forall i j k ts ts', body i j k ts = Some ts' -> length ts' = length ts.

Lemma loop_k_len (fuel i j : nat) (ts ts' : list (Triangle F)) :
  loop_k body fuel i j ts = Some ts' -> length ts' = length ts.
Proof.
  intros Hk. unfold loop_k in Hk. refine (for_loop_inv _ _ (fun ts1 => length ts1 = length ts) fuel (S j) ts ts' _ Hk eq_refl).
  intros k ts0 ts1 Hb <-. exact (body_len _ _ _ _ _ Hb).
Qed.

Lemma loop_j_len (fuel i : nat) (ts ts' : list (Triangle F)) :
  loop_j body fuel i ts = Some ts' -> length ts' = length ts.
Proof.
  intros Hj. unfold loop_j in Hj. refine (for_loop_inv _ _ (fun ts1 => length ts1 = length ts) fuel (S i) ts ts' _ Hj eq_refl).
  intros j ts0 ts1 Hk <-. exact (loop_k_len _ _ _ _ _ Hk).
Qed.

Lemma loop_k_seq (fuel i j : nat) (ts : list (Triangle F)) :
  length ts < fuel ->
  loop_k body fuel i j ts = fold_opt (body i j) (seq (S j) (length ts - S j)) ts.
Proof.
  intros Hf. apply for_loop_seq; [|cbn; lia]. intros k ts0 ts1. apply body_len.
Qed.

Lemma loop_j_seq (fuel i : nat) (ts : list (Triangle F)) :
  length ts < fuel ->
  loop_j body fuel i ts =
  fold_opt (fun j => fold_opt (body i j) (seq (S j) (length ts - S j))) (seq (S i) (length ts - S i)) ts.
Proof.
  intros Hf. unfold loop_j. rewrite for_loop_seq; [|intros j ts0 ts1; apply loop_k_len|cbn; lia].
  apply (fold_opt_ext (fun ts' => length ts' = length ts));
    [|intros j ts0 ts1 Hk <-; exact (loop_k_len _ _ _ _ _ Hk)|reflexivity].
  intros j ts0 _ Hl. rewrite <- Hl. apply loop_k_seq. lia.
Qed.

Lemma connect_loops_fold (fuel : nat) (ts : list (Triangle F)) :
  length ts < fuel ->
  connect_loops body fuel ts = fold_opt (fun '(i, j, k) => body i j k) (triples (length ts)) ts.
Proof.
  intros Hf. unfold connect_loops, triples.
  rewrite for_loop_seq; [|intros i ts0 ts1; apply loop_j_len|cbn; lia].
  rewrite Nat.sub_0_r, fold_opt_flat_map.
  apply (fold_opt_ext (fun ts' => length ts' = length ts));
    [|intros i ts0 ts1 Hj <-; exact (loop_j_len _ _ _ _ Hj)|reflexivity].
  intros i ts0 _ Hl. rewrite loop_j_seq, fold_opt_flat_map, Hl by lia.
  apply fold_opt_ext with (P := fun _ => True); [|trivial..].
  intros j ts1 _ _. rewrite fold_opt_map. reflexivity.
Qed.

End LoopNest.

(** ** The triples the pass visits *)

(** Strict lexicographic order on index triples. *)
Definition lex3 (a b : nat * nat * nat) : Prop :=
  let '(i, j, k) := a in
  let '(i', j', k') := b in
  i < i' \/ (i = i' /\ (j < j' \/ (j = j' /\ k < k'))).

Lemma seq_sorted (a m : nat) : StronglySorted lt (seq a m).
Proof.
  revert a. induction m as [|m IH]; intros a; cbn; constructor; [apply IH|].
  apply List.Forall_forall. intros x Hx. apply in_seq in Hx. lia.
Qed.

Lemma SSorted_map {A B : Type} (Q : relation A) (R : relation B) (h : A -> B) (l : list A) :
  (forall x y, Q x y -> R (h x) (h y)) -> StronglySorted Q l -> StronglySorted R (map h l).
Proof.
  intros Hh. induction 1 as [|x l _ IH Hx]; cbn; constructor; [exact IH|].
  apply List.Forall_map. exact (List.Forall_impl _ (Hh x) Hx).
Qed.

Lemma SSorted_flat_map {A B : Type} (Q : relation A) (R : relation B) (f : A -> list B)
    (l : list A) :
  (forall x, StronglySorted R (f x)) ->
  (forall x y u v, Q x y -> In u (f x) -> In v (f y) -> R u v) ->
  StronglySorted Q l -> StronglySorted R (flat_map f l).
Proof.
  intros Hf Hxy. induction 1 as [|x l _ IH Hx]; cbn; [constructor|].
  apply StronglySorted_app_2; [|apply Hf|exact IH].
  intros u v Hu Hv. apply list_elem_of_In in Hu, Hv. apply in_flat_map in Hv as (y & Hy & Hv).
  exact (Hxy x y u v (proj1 (List.Forall_forall _ _) Hx y Hy) Hu Hv).
Qed.

(** The triples with first index [i]. *)
Lemma in_triples_i (n i : nat) (t : nat * nat * nat) :
  In t (flat_map (fun j => map (fun k => (i, j, k)) (seq (S j) (n - S j))) (seq (S i) (n - S i))) ->
  exists j k, t = (i, j, k) /\ i < j < k /\ k < n.
Proof.
  intros Ht. apply in_flat_map in Ht as (j & Hj & Ht). apply in_map_iff in Ht as (k & <- & Hk).
  apply in_seq in Hj, Hk. exists j, k. split; [reflexivity|lia].
Qed.

Lemma in_triples (n i j k : nat) : In (i, j, k) (triples n) <-> i < j < k /\ k < n.
Proof.
  unfold triples. rewrite in_flat_map. split.
  - intros (i' & _ & Ht). apply in_triples_i in Ht as (j' & k' & [= -> -> ->] & H). exact H.
  - intros H. exists i. split; [apply in_seq; lia|]. apply in_flat_map. exists j.
    split; [apply in_seq; lia|]. apply in_map_iff. exists k. split; [reflexivity|apply in_seq; lia].
Qed.

Lemma triples_sorted (n : nat) : StronglySorted lex3 (triples n).
Proof.
  unfold triples. apply (SSorted_flat_map lt); [intros i| |apply seq_sorted].
  - apply (SSorted_flat_map lt); [intros j| |apply seq_sorted].
    + apply (SSorted_map lt); [|apply seq_sorted]. cbn. lia.
    + intros j j' u v Hj Hu Hv. apply in_map_iff in Hu as (k & <- & _), Hv as (k' & <- & _).
      cbn. lia.
  - intros i i' u v Hi Hu Hv. apply in_triples_i in Hu as (j & k & -> & _), Hv as (j' & k' & -> & _).
    cbn. lia.
Qed.

Lemma length_triples_j (n i a m : nat) :
  a + m = n ->
  2 * length (flat_map (fun j => map (fun k => (i, j, k)) (seq (S j) (n - S j))) (seq a m))
  = m * (m - 1).
Proof.
  revert a. induction m as [|m IH]; intros a Ha; [reflexivity|].
  cbn [seq flat_map]. rewrite length_app, length_map, length_seq, Nat.mul_add_distr_l, (IH (S a)) by lia.
  replace (n - S a) with m by lia. destruct m; cbn; nia.
Qed.

Lemma length_triples_i (n a m : nat) :
  a + m = n ->
  6 * length (flat_map (fun i =>
    flat_map (fun j => map (fun k => (i, j, k)) (seq (S j) (n - S j))) (seq (S i) (n - S i)))
    (seq a m)) = m * (m - 1) * (m - 2).
Proof.
  revert a. induction m as [|m IH]; intros a Ha; [reflexivity|].
  cbn [seq flat_map]. rewrite length_app, Nat.mul_add_distr_l, (IH (S a)) by lia.
  pose proof (length_triples_j n a (S a) (n - S a) ltac:(lia)) as Hj.
  replace (n - S a) with m in * by lia.
  set (L := length _) in Hj |- *. clearbody L. nia.
Qed.

(** C12: The index triples of [connectClosestPoints]: for [n] triangles the
    three loop headers enumerate exactly the triples [i < j < k < n], each
    once, in strictly increasing lexicographic order, and there are
    [n (n - 1) (n - 2) / 6] of them: the pass makes that many evaluations
    of the test, cubic in [n]. *)
Theorem triples_spec (n : nat) :
  (forall i j k, In (i, j, k) (triples n) <-> i < j < k /\ k < n) /\
  StronglySorted lex3 (triples n) /\
  6 * length (triples n) = n * (n - 1) * (n - 2).
Proof.
  split; [apply in_triples|split; [apply triples_sorted|]].
  rewrite <- (Nat.add_0_l n) at 1. apply length_triples_i. lia.
Qed.

Section ConnectFold.
Context {F : Type} `{Scalar F}.

(** C10: With fuel above the number of triangles, the three nested loops of
    [connectClosestPoints], which re-read [triangles.size()] at every test,
    run their body over [triples n] in order, stopping at the first
    failure, for every body that keeps the size of the vector. *)
Theorem connect_loops_triples (body : triple_body (F:=F)) (fuel : nat) (ts : list (Triangle F)) :
  (forall i j k ts ts', body i j k ts = Some ts' -> length ts' = length ts) ->
  length ts < fuel ->
  connect_loops body fuel ts = fold_opt (fun '(i, j, k) => body i j k) (triples (length ts)) ts.
Proof. intros Hlen. apply connect_loops_fold, Hlen. Qed.

End ConnectFold.

(** A set of three triangles over [double] on which the test of
    [connectClosestPoints] holds for the triple [(0, 1, 2)]: the first,
    [(0,0,0), (4,0,0), (0,4,0)], contains the first corners [(1,1,0)] and
    [(5,5,0)] of the two others. *)
Definition three_triangles : Triangles PrimFloat.float :=
  mkTriangles [mkTriangle (point_of_Z 0 0 0) (point_of_Z 4 0 0) (point_of_Z 0 4 0);
               mkTriangle (point_of_Z 1 1 0) (point_of_Z 2 1 0) (point_of_Z 1 2 0);
               mkTriangle (point_of_Z 5 5 0) (point_of_Z 6 5 0) (point_of_Z 5 6 0)].

Lemma connectClosestPoints_id_witness :
  connectClosestPoints 4 three_triangles = Some three_triangles.
Proof. apply connectClosestPoints_id. cbn. lia. Defined.

Lemma connect_loops_triples_witness :
  connect_loops (connect_body 4) 4 (triangles three_triangles) =
  fold_opt (fun '(i, j, k) => connect_body 4 i j k) [(0, 1, 2)] (triangles three_triangles).
Proof.
  rewrite connect_loops_triples; [reflexivity| |cbn; lia].
  intros i j k ts ts' Hb. rewrite (connect_body_some _ _ _ _ _ _ Hb). reflexivity.
Defined.
