(* ===== verification/Counters.v ===== *)
(** * Counters: the [int] loop counters of [connectClosestPoints]

    The three loops of [Triangles::connectClosestPoints] ([src/main.cpp],
    lines 180-182) count with [int i], [int j], [int k] and compare them
    with [triangles.size()], a [size_t].  [Triangles] models the counters
    as [nat]; this file models them as the C++ code has them: 32-bit signed
    integers kept as [Z], the test [i < triangles.size()] after the usual
    arithmetic conversion of [i] to the 64-bit unsigned [size_t], and the
    increments [i++] and [i + 1], whose signed overflow is undefined
    behaviour, as an error ([None]).  The theorems relate the two models:
    they agree on every vector of at most [INT_MAX] triangles, and on a
    larger vector the code reaches a signed overflow, whatever the fuel. *)

From Stdlib Require Import ZArith List Lia.
From stdpp Require Import base list.
From S2P Require Import Prelude Scalars Point3D Triangle Triangles.

(** The largest [int], [2^31 - 1], and the modulus of the 64-bit [size_t]. *)
Definition INT_MAX : Z := (2 ^ 31 - 1)%Z.
Definition SIZE_MOD : Z := (2 ^ 64)%Z.

(** [i < v.size()] for an [int i]: [i] is converted to [size_t]. *)
Definition int_lt_size (i : Z) (size : nat) : bool := Z.ltb (i mod SIZE_MOD)%Z (Z.of_nat size).

(** [i++] and [i + 1] on an [int]: an error past [INT_MAX]. *)
Definition int_incr (i : Z) : option Z := if Z.ltb i INT_MAX then Some (i + 1)%Z else None.

(** [for (int i = lo; i < size(); i++) body], the bound re-read at every
    test. *)
Definition for_loop_int {St : Type} (fuel : nat) (hi : St -> nat)
    (body : Z -> St -> option St) (lo : Z) (s : St) : option St :=
  option_map snd
    (while_loop fuel (fun st => int_lt_size (fst st) (hi (snd st)))
       (fun st =>
          match body (fst st) (snd st) with
          | None => None
          | Some s' => option_map (fun i' => Continue (i', s')) (int_incr (fst st))
          end)
       (fun st => st) (lo, s)).

Section CountersOps.
Context {F : Type} `{Scalar F}.

(** The body of the innermost loop, with [int] indices. *)
Definition triple_body_int : Type := Z -> Z -> Z -> list (Triangle F) -> option (list (Triangle F)).

(** [for (int k = j + 1; k < triangles.size(); k++)] *)
Definition loop_k_int (body : triple_body_int) (fuel : nat) (i j : Z) (ts : list (Triangle F))
    : option (list (Triangle F)) :=
  match int_incr j with
  | None => None
  | Some k0 => for_loop_int fuel (fun ts => length ts) (fun k ts => body i j k ts) k0 ts
  end.

(** [for (int j = i + 1; j < triangles.size(); j++)] *)
Definition loop_j_int (body : triple_body_int) (fuel : nat) (i : Z) (ts : list (Triangle F))
    : option (list (Triangle F)) :=
  match int_incr i with
  | None => None
  | Some j0 => for_loop_int fuel (fun ts => length ts) (fun j ts => loop_k_int body fuel i j ts) j0 ts
  end.

(** [for (int i = 0; i < triangles.size(); i++)] *)
Definition connect_loops_int (body : triple_body_int) (fuel : nat) (ts : list (Triangle F))
    : option (list (Triangle F)) :=
  for_loop_int fuel (fun ts => length ts) (fun i ts => loop_j_int body fuel i ts) 0%Z ts.

(** [connectClosestPoints()] with [int] counters; [triangles[i]] converts
    the [int] to [size_t]. *)
Definition connectClosestPoints_int (fuel : nat) (s : Triangles F) : option (Triangles F) :=
  option_map mkTriangles
    (connect_loops_int (fun i j k => connect_body fuel (Z.to_nat i) (Z.to_nat j) (Z.to_nat k))
       fuel (triangles s)).

End CountersOps.

(** ** The [int] loop against the [nat] loop *)

Lemma int_lt_size_nat (i n : nat) :
  (Z.of_nat i <= INT_MAX)%Z -> int_lt_size (Z.of_nat i) n = Nat.ltb i n.
Proof.
  unfold int_lt_size, SIZE_MOD, INT_MAX. intros Hi. rewrite Z.mod_small by lia.
  destruct (Nat.ltb_spec i n); [apply Z.ltb_lt|apply Z.ltb_ge]; lia.
Qed.

Lemma int_incr_nat (i : nat) : (Z.of_nat i < INT_MAX)%Z -> int_incr (Z.of_nat i) = Some (Z.of_nat (S i)).
Proof. unfold int_incr. intros Hi. rewrite (proj2 (Z.ltb_lt _ _) Hi). f_equal. lia. Qed.

Section ForLoopInt.
Context {St : Type} (hi : St -> nat) (body : Z -> St -> option St).

Lemma for_loop_int_unfold (fuel : nat) (lo : Z) (s : St) :
  for_loop_int (S fuel) hi body lo s =
  if int_lt_size lo (hi s) then
    match body lo s with
    | None => None
    | Some s' =>
        match int_incr lo with
        | None => None
        | Some lo' => for_loop_int fuel hi body lo' s'
        end
    end
  else Some s.
Proof.
  unfold for_loop_int. cbn [while_loop fst snd].
  destruct (int_lt_size lo (hi s)); [|reflexivity].
  destruct (body lo s); [|reflexivity]. destruct (int_incr lo); reflexivity.
Qed.

Lemma for_loop_int_inv (P : St -> Prop) (fuel : nat) (lo : Z) (s s' : St) :
  (forall i s0 s1, body i s0 = Some s1 -> P s0 -> P s1) ->
  for_loop_int fuel hi body lo s = Some s' -> P s -> P s'.
Proof.
  intros Hb. revert lo s. induction fuel as [|fuel IH]; intros lo s Hrun HP; [discriminate|].
  rewrite for_loop_int_unfold in Hrun. destruct (int_lt_size lo (hi s)); [|injection Hrun as <-; exact HP].
  destruct (body lo s) as [s1|] eqn:E; [|discriminate]. destruct (int_incr lo); [|discriminate].
  exact (IH _ _ Hrun (Hb _ _ _ E HP)).
Qed.

(** A loop whose first test holds and whose first iteration fails fails. *)
Lemma for_loop_int_first_none (fuel : nat) (lo : Z) (s : St) :
  int_lt_size lo (hi s) = true -> body lo s = None -> for_loop_int fuel hi body lo s = None.
Proof. destruct fuel; [reflexivity|]. intros Hc Hb. rewrite for_loop_int_unfold, Hc, Hb. reflexivity. Qed.

Hypothesis body_hi : forall i s0 s1, body i s0 = Some s1 -> hi s1 = hi s0.

(** Below [INT_MAX], the [int] counter is the [nat] counter. *)
Lemma for_loop_int_nat (fuel lo : nat) (s : St) :
  (Z.of_nat (hi s) <= INT_MAX)%Z -> lo <= hi s ->
  for_loop_int fuel hi body (Z.of_nat lo) s = for_loop fuel hi (fun i => body (Z.of_nat i)) lo s.
Proof.
  revert lo s. induction fuel as [|fuel IH]; intros lo s Hn Hlo; [reflexivity|].
  rewrite for_loop_int_unfold, for_loop_unfold, int_lt_size_nat by lia. cbn beta.
  destruct (Nat.ltb_spec lo (hi s)) as [Hlt|]; [|reflexivity].
  destruct (body (Z.of_nat lo) s) as [s1|] eqn:Hb; [|reflexivity].
  rewrite int_incr_nat by lia. pose proof (body_hi _ _ _ Hb). apply IH; lia.
Qed.

(** With a bound above [INT_MAX], the counter overflows before the loop
    can end, whatever the fuel. *)
Lemma for_loop_int_overflow (fuel : nat) (lo : Z) (s : St) :
  (INT_MAX < Z.of_nat (hi s))%Z -> (0 <= lo <= INT_MAX)%Z -> for_loop_int fuel hi body lo s = None.
Proof.
  revert lo s. induction fuel as [|fuel IH]; intros lo s Hn Hlo; [reflexivity|].
  rewrite for_loop_int_unfold. unfold int_lt_size at 1.
  rewrite Z.mod_small by (unfold SIZE_MOD, INT_MAX in *; lia).
  rewrite (proj2 (Z.ltb_lt _ _)) by lia.
  destruct (body lo s) as [s1|] eqn:Hb; [|reflexivity].
  unfold int_incr. destruct (Z.ltb_spec lo INT_MAX); [|reflexivity].
  apply IH; [rewrite (body_hi _ _ _ Hb)|]; lia.
Qed.

End ForLoopInt.

(** ** The loop nest of [connectClosestPoints] *)

Section IntLoops.
Context {F : Type} `{Scalar F}.
Variable body : triple_body_int (F:=F).
Hypothesis body_len :
  forall i j k ts ts', body i j k ts = Some ts' -> length ts' = length ts.

(** The same body, on [nat] indices. *)
Let body_nat : triple_body (F:=F) :=
  fun i j k => body (Z.of_nat i) (Z.of_nat j) (Z.of_nat k).

Lemma loop_k_int_len (fuel : nat) (i j : Z) (ts ts' : list (Triangle F)) :
  loop_k_int body fuel i j ts = Some ts' -> length ts' = length ts.
Proof.
  unfold loop_k_int. destruct (int_incr j) as [k0|]; [|discriminate]. intros Hk.
  refine (for_loop_int_inv _ _ (fun ts1 => length ts1 = length ts) fuel k0 ts ts' _ Hk eq_refl).
  intros k ts0 ts1 Hb <-. exact (body_len _ _ _ _ _ Hb).
Qed.

Lemma loop_j_int_len (fuel : nat) (i : Z) (ts ts' : list (Triangle F)) :
  loop_j_int body fuel i ts = Some ts' -> length ts' = length ts.
Proof.
  unfold loop_j_int. destruct (int_incr i) as [j0|]; [|discriminate]. intros Hj.
  refine (for_loop_int_inv _ _ (fun ts1 => length ts1 = length ts) fuel j0 ts ts' _ Hj eq_refl).
  intros j ts0 ts1 Hk <-. exact (loop_k_int_len _ _ _ _ _ Hk).
Qed.

Lemma loop_k_int_nat (fuel i j : nat) (ts : list (Triangle F)) :
  j < length ts -> (Z.of_nat (length ts) <= INT_MAX)%Z ->
  loop_k_int body fuel (Z.of_nat i) (Z.of_nat j) ts = loop_k body_nat fuel i j ts.
Proof.
  intros Hj Hn. unfold loop_k_int, loop_k. rewrite int_incr_nat by lia.
  apply for_loop_int_nat; [intros k; apply body_len|exact Hn|lia].
Qed.

Lemma loop_j_int_nat (fuel i : nat) (ts : list (Triangle F)) :
  i < length ts -> (Z.of_nat (length ts) <= INT_MAX)%Z ->
  loop_j_int body fuel (Z.of_nat i) ts = loop_j body_nat fuel i ts.
Proof.
  intros Hi Hn. unfold loop_j_int, loop_j. rewrite int_incr_nat by lia.
  rewrite for_loop_int_nat; [|intros j ts0 ts1; apply loop_k_int_len|exact Hn|cbn; lia].
  apply (for_loop_ext_inv _ _ _ (fun ts0 => length ts0 = length ts));
    [|intros j ts0 ts1 Hk <-; exact (loop_k_int_len _ _ _ _ _ Hk)|reflexivity].
  intros j ts0 Hj Hl. cbn in Hj. apply loop_k_int_nat; rewrite ?Hl in *; lia.
Qed.

Lemma connect_loops_int_nat (fuel : nat) (ts : list (Triangle F)) :
  (Z.of_nat (length ts) <= INT_MAX)%Z -> connect_loops_int body fuel ts = connect_loops body_nat fuel ts.
Proof.
  intros Hn. unfold connect_loops_int, connect_loops. change 0%Z with (Z.of_nat 0).
  rewrite for_loop_int_nat; [|intros i ts0 ts1; apply loop_j_int_len|exact Hn|lia].
  apply (for_loop_ext_inv _ _ _ (fun ts0 => length ts0 = length ts));
    [|intros i ts0 ts1 Hj <-; exact (loop_j_int_len _ _ _ _ Hj)|reflexivity].
  intros i ts0 Hi Hl. cbn in Hi. apply loop_j_int_nat; rewrite ?Hl in *; lia.
Qed.

(** Above [INT_MAX], the innermost loop of the first pair [(0, 1)]
    overflows [k]. *)
Lemma connect_loops_int_overflow (fuel : nat) (ts : list (Triangle F)) :
  (INT_MAX < Z.of_nat (length ts))%Z -> connect_loops_int body fuel ts = None.
Proof.
  intros Hn. assert (Hlt : forall i : nat, i < 2 -> int_lt_size (Z.of_nat i) (length ts) = true).
  { intros i Hi. rewrite int_lt_size_nat by (unfold INT_MAX; lia). apply Nat.ltb_lt. unfold INT_MAX in Hn. lia. }
  unfold connect_loops_int. apply for_loop_int_first_none; [exact (Hlt 0 ltac:(lia))|].
  unfold loop_j_int. change (int_incr 0) with (Some (Z.of_nat 1)). cbv iota.
  apply for_loop_int_first_none; [exact (Hlt 1 ltac:(lia))|].
  unfold loop_k_int. change (int_incr (Z.of_nat 1)) with (Some 2%Z). cbv iota.
  apply for_loop_int_overflow; [intros k; apply body_len|exact Hn|unfold INT_MAX; lia].
Qed.

End IntLoops.

(** ** [connectClosestPoints] with its [int] counters *)

Section ConnectInt.
Context {F : Type} `{Scalar F}.

(** The loop nest only sees its body through its results. *)
Lemma connect_loops_ext (b1 b2 : triple_body (F:=F)) (fuel : nat) (ts : list (Triangle F)) :
  (forall i j k ts, b1 i j k ts = b2 i j k ts) -> connect_loops b1 fuel ts = connect_loops b2 fuel ts.
Proof.
  intros E. unfold connect_loops, loop_j, loop_k.
  apply (for_loop_ext_inv _ _ _ (fun _ => True)); [intros i ts0 _ _|trivial..].
  apply (for_loop_ext_inv _ _ _ (fun _ => True)); [intros j ts1 _ _|trivial..].
  apply (for_loop_ext_inv _ _ _ (fun _ => True)); [intros k ts2 _ _|trivial..].
  apply E.
Qed.

Lemma connect_body_int_len (fuel : nat) (i j k : Z) (ts ts' : list (Triangle F)) :
  connect_body fuel (Z.to_nat i) (Z.to_nat j) (Z.to_nat k) ts = Some ts' -> length ts' = length ts.
Proof. intros Hb. rewrite (connect_body_some _ _ _ _ _ _ Hb). reflexivity. Qed.

(** C13: The [int] counters of the C++ loops are faithfully represented by
    [nat] counters: for every vector of at most [INT_MAX] triangles, the
    model with 32-bit signed counters, [size_t] comparisons and overflow
    checks computes what the [nat] model [connectClosestPoints] computes,
    for every fuel; no counter overflows. *)
Theorem connectClosestPoints_int_nat (fuel : nat) (s : Triangles F) :
  (Z.of_nat (length (triangles s)) <= INT_MAX)%Z ->
  connectClosestPoints_int fuel s = connectClosestPoints fuel s.
Proof.
  intros Hn. unfold connectClosestPoints_int, connectClosestPoints. f_equal.
  rewrite connect_loops_int_nat; [|intros i j k; apply connect_body_int_len|exact Hn].
  apply connect_loops_ext. intros i j k ts. rewrite !Nat2Z.id. reflexivity.
Qed.

(** C14: On a vector of more than [INT_MAX] triangles, [connectClosestPoints]
    has undefined behaviour: for the first pair [(i, j) = (0, 1)] the
    innermost counter [k] runs up to [INT_MAX] and [k++] overflows, whatever
    the fuel. *)
Theorem connectClosestPoints_int_overflow (fuel : nat) (s : Triangles F) :
  (INT_MAX < Z.of_nat (length (triangles s)))%Z -> connectClosestPoints_int fuel s = None.
Proof.
  intros Hn. unfold connectClosestPoints_int.
  rewrite connect_loops_int_overflow; [reflexivity|intros i j k; apply connect_body_int_len|exact Hn].
Qed.

End ConnectInt.

(** ** Witnesses *)

(** The three triangles of [Triangles], with [int] counters. *)
Lemma connectClosestPoints_int_nat_witness :
  connectClosestPoints_int 4 three_triangles = connectClosestPoints 4 three_triangles.
Proof. apply connectClosestPoints_int_nat. cbn. unfold INT_MAX. lia. Defined.

(** A vector of [2^31] copies of a triangle. *)
Definition big_triangles : Triangles PrimFloat.float :=
  mkTriangles (repeat (mkTriangle (point_of_Z 0 0 0) (point_of_Z 4 0 0) (point_of_Z 0 4 0))
                 (Z.to_nat (2 ^ 31))).

Lemma connectClosestPoints_int_overflow_witness :
  connectClosestPoints_int 1 big_triangles = None.
Proof.
  apply connectClosestPoints_int_overflow. unfold big_triangles, triangles.
  rewrite repeat_length, Z2Nat.id by lia. unfold INT_MAX. lia.
Defined.
