(* ===== verification/Session.v ===== *)
(** * Session: a [Triangles] object driven by its callers

    [src/main.cpp] gives the class [Triangles] two public operations,
    [addTriangle] and [connectClosestPoints]; a client calls them in any
    order.  This file models such a client: a sequence of calls run by
    [run_calls], and the transition system [tstep] whose states are the
    [Triangles] values and whose steps are the two calls, with [reachable]
    the states a client can build from the empty set.  The theorems say what
    a client observes: the vector holds exactly the triangles it added, in
    the order of the calls, and no pass of [connectClosestPoints] ever puts
    a triangle there that the client did not add. *)

From Stdlib Require Import List Lia.
From stdpp Require Import base list.
From S2P Require Import Prelude Scalars Point3D Triangle Triangles.

Section Session.
Context {F : Type} `{Scalar F}.

(** A call of a client on a [Triangles] object. *)
Inductive call : Type :=
| CallAdd (t : Triangle F)
| CallConnect.

(** One call; [fuel] is the fuel given to [connectClosestPoints]. *)
Definition run_call (fuel : nat) (s : Triangles F) (c : call) : option (Triangles F) :=
  match c with
  | CallAdd t => Some (addTriangle s t)
  | CallConnect => connectClosestPoints fuel s
  end.

(** A sequence of calls, in order; [None] as soon as one of them runs out
    of fuel. *)
Fixpoint run_calls (fuel : nat) (s : Triangles F) (cs : list call) : option (Triangles F) :=
  match cs with
  | [] => Some s
  | c :: cs' =>
      match run_call fuel s c with
      | None => None
      | Some s' => run_calls fuel s' cs'
      end
  end.

(** The triangles a sequence of calls adds, in order. *)
Fixpoint added (cs : list call) : list (Triangle F) :=
  match cs with
  | [] => []
  | CallAdd t :: cs' => t :: added cs'
  | CallConnect :: cs' => added cs'
  end.

(** The transitions of a [Triangles] object whose client only adds
    triangles satisfying [Q]: an [addTriangle] call, or a call of
    [connectClosestPoints] that returns, with any fuel. *)
Inductive tstep (Q : Triangle F -> Prop) : Triangles F -> Triangles F -> Prop :=
| tstep_add (s : Triangles F) (t : Triangle F) :
    Q t -> tstep Q s (addTriangle s t)
| tstep_connect (fuel : nat) (s s' : Triangles F) :
    connectClosestPoints fuel s = Some s' -> tstep Q s s'.

(** The states reachable from the empty vector of the constructor. *)
Inductive reachable (Q : Triangle F -> Prop) : Triangles F -> Prop :=
| reachable_empty : reachable Q (mkTriangles [])
| reachable_step (s s' : Triangles F) : reachable Q s -> tstep Q s s' -> reachable Q s'.

(** ** Lemmas *)

Lemma added_length (cs : list call) : length (added cs) <= length cs.
Proof. induction cs as [|[t|] cs IH]; cbn; lia. Qed.

Lemma run_calls_app_spec (fuel : nat) (cs : list call) (s : Triangles F) :
  length (triangles s) + length cs < fuel ->
  run_calls fuel s cs = Some (mkTriangles (triangles s ++ added cs)).
Proof.
  revert s. induction cs as [|[t|] cs IH]; intros s Hf; cbn in *.
  - rewrite app_nil_r. destruct s; reflexivity.
  - rewrite IH by (cbn; rewrite length_app; cbn; lia). cbn. rewrite <- app_assoc. reflexivity.
  - rewrite connectClosestPoints_noop by lia. apply IH. lia.
Qed.

Lemma tstep_Forall (Q : Triangle F -> Prop) (s s' : Triangles F) :
  tstep Q s s' -> Forall Q (triangles s) -> Forall Q (triangles s').
Proof.
  intros [s0 t Ht|fuel s0 s1 Hc] HQ.
  - cbn. apply Forall_app. split; [exact HQ|constructor; [exact Ht|constructor]].
  - apply connectClosestPoints_some in Hc. subst. exact HQ.
Qed.

Lemma reachable_Forall_added (Q : Triangle F -> Prop) (s : Triangles F) :
  reachable Q s -> Forall Q (triangles s).
Proof.
  induction 1 as [|s s' _ IH Hst]; [constructor|]. exact (tstep_Forall Q s s' Hst IH).
Qed.

(** ** What a client observes *)

(** With fuel above the number of triangles the session can ever hold,
    a sequence of calls always finishes, and the object then holds the
    triangles it held before followed by the triangles the calls added, in
    the order of the calls; the calls of [connectClosestPoints] between
    them change nothing. *)
Theorem run_calls_added (fuel : nat) (cs : list call) (s : Triangles F) :
  length (triangles s) + length cs < fuel ->
  run_calls fuel s cs = Some (mkTriangles (triangles s ++ added cs)).
Proof. apply run_calls_app_spec. Qed.

(** C9: Safety of every session: in every state reachable from the empty
    set by [addTriangle] calls with triangles satisfying [Q] and calls of
    [connectClosestPoints] that return (with any fuel, enough or not),
    every triangle of the vector satisfies [Q]; [connectClosestPoints]
    never stores a triangle of its own making. *)
Theorem reachable_only_added (Q : Triangle F -> Prop) (s : Triangles F) :
  reachable Q s -> Forall Q (triangles s).
Proof. apply reachable_Forall_added. Qed.

End Session.

(** ** Witnesses on [double] *)

(** Two triangles of the spec's plane over [double]. *)
Definition session_t1 : Triangle PrimFloat.float :=
  mkTriangle (point_of_Z 0 0 0) (point_of_Z 4 0 0) (point_of_Z 0 4 0).
Definition session_t2 : Triangle PrimFloat.float :=
  mkTriangle (point_of_Z 1 1 0) (point_of_Z 2 1 0) (point_of_Z 1 2 0).

Lemma run_calls_added_witness :
  run_calls 5 (mkTriangles []) [CallAdd session_t1; CallConnect; CallAdd session_t2; CallConnect]
  = Some (mkTriangles [session_t1; session_t2]).
Proof. rewrite (run_calls_added 5 _ (mkTriangles [])) by (cbn; lia). reflexivity. Defined.

Lemma reachable_only_added_witness :
  Forall (fun t => p1 t = point_of_Z 0 0 0) [session_t1].
Proof.
  apply (reachable_only_added (fun t => p1 t = point_of_Z 0 0 0) (mkTriangles [session_t1])).
  apply (reachable_step _ (mkTriangles [session_t1])).
  - apply (reachable_step _ (mkTriangles []) (addTriangle (mkTriangles []) session_t1)).
    + apply reachable_empty.
    + apply tstep_add. reflexivity.
  - apply (tstep_connect _ 2). vm_compute. reflexivity.
Defined.
