(* ===== verification/Adjustment.v ===== *)
(** * Adjustment: the contract the spec sets for [improveEquilateral]

    [spec.md] (component design of [Triangle], and its section on
    invariants) asks of [improveEquilateral] what the code does not do: the
    loop must recompute the deviation at each iteration, stop once it is at
    most the tolerance, move at least one corner by a displacement
    proportional to [delta] (for example all corners toward the centroid),
    and stop after an iteration cap with a non-convergence outcome;
    applied to a triangle that is already equilateral enough it must
    return it unchanged.  This file states that contract
    ([improve_contract]) on outcomes [Converged] and [NonConverged], models
    the algorithm the spec describes with its suggested centroid
    correction ([improve_spec_loop], from the spec, not from [src/]), and
    relates both to the code:
    - the spec's algorithm meets the contract for every cap;
    - the code meets it exactly on the triangles that need no adjustment;
    - the centroid correction is a homothety, which keeps the deviation,
      so the spec's algorithm with it never converges on a triangle above
      the tolerance. *)

From Stdlib Require Import ZArith Reals Lra.
From S2P Require Import Prelude Scalars Point3D Geometry Triangle.

(** The outcomes of the intended method: the adjusted triangle, or the
    triangle reached when the iteration cap is hit. *)
Inductive improve_outcome (F : Type) : Type :=
| Converged (t : Triangle F)
| NonConverged (t : Triangle F).
Arguments Converged {F} t.
Arguments NonConverged {F} t.

Section AdjustmentOps.
Context {F : Type} `{Scalar F}.
Local Open Scope scalar_scope.

(** The centroid of the three corners. *)
Definition centroid (t : Triangle F) : Point3D F :=
  div (add (add (p1 t) (p2 t)) (p3 t)) (s_of_Z 3).

(** The spec's example correction: every corner nudged toward the centroid
    by [delta], with the program's own [vector_tweak] (the spec's [nudge])
    in its copying mode. *)
Definition centroid_nudge (delta : F) (t : Triangle F) : Triangle F :=
  let c := centroid t in
  mkTriangle (snd (vector_tweak (p1 t) (sub c (p1 t)) delta false))
             (snd (vector_tweak (p2 t) (sub c (p2 t)) delta false))
             (snd (vector_tweak (p3 t) (sub c (p3 t)) delta false)).

(** The intended loop: recompute the deviation, stop when it is at most the
    tolerance, otherwise correct and iterate; after [cap] corrections,
    report non-convergence. *)
Fixpoint improve_spec_loop (cap : nat) (delta tolerance : F) (t : Triangle F)
    : improve_outcome F :=
  if tolerance <? isEquilateral t then
    match cap with
    | O => NonConverged t
    | S cap' => improve_spec_loop cap' delta tolerance (centroid_nudge delta t)
    end
  else Converged t.

(** The outcome of the code's [improveEquilateral()] with its default
    arguments: the returned triangle, always reported as converged (the
    code has no other outcome). *)
Definition code_outcome (fuel : nat) (t : Triangle F) : option (improve_outcome F) :=
  option_map (fun r => Converged (snd r)) (improveEquilateral_default fuel t).

End AdjustmentOps.

(** The contract of the spec on an outcome [o] for the input [t]: a
    converged triangle is within the tolerance; non-convergence is reported
    only for an input above it; an input within the tolerance is returned
    unchanged. *)
Definition improve_contract (tolerance : R) (t : Triangle R) (o : improve_outcome R) : Prop :=
  match o with
  | Converged r => isEquilateral r <= tolerance
  | NonConverged _ => tolerance < isEquilateral t
  end /\ (isEquilateral t <= tolerance -> o = Converged t).

(** ** Lemmas *)

Open Scope R_scope.

Lemma centroid_nudge_side (p q c : Point3D R) (delta : R) :
  delta <= 1 ->
  distanceTo (snd (vector_tweak p (sub c p) delta false)) (snd (vector_tweak q (sub c q) delta false))
  = (1 - delta) * distanceTo p q.
Proof.
  intros Hd. apply distanceTo_dist2_scale; [lra|].
  unfold dist2, vector_tweak, sub. rsimpl. cbn [snd x y z]. ring.
Qed.

(** A nudge of every corner toward the centroid by [delta < 1] scales the
    triangle by [1 - delta] about the centroid: its deviation is the same. *)
Lemma centroid_nudge_dev (delta : R) (t : Triangle R) :
  delta < 1 -> isEquilateral (centroid_nudge delta t) = isEquilateral t.
Proof.
  intros Hd. apply (isEquilateral_sides_scale _ _ (1 - delta)); [lra| | |];
    unfold side1, side2, side3, centroid_nudge; cbn [p1 p2 p3]; apply centroid_nudge_side; lra.
Qed.

Lemma improve_spec_loop_contract (cap : nat) (delta tolerance : R) (t : Triangle R) :
  improve_contract tolerance t (improve_spec_loop cap delta tolerance t).
Proof.
  revert t. induction cap as [|cap IH]; intros t; cbn [improve_spec_loop]; rsimpl;
    destruct (Rltb tolerance (isEquilateral t)) eqn:E.
  all: unfold improve_contract; cbn beta iota.
  all: try (apply Rltb_false in E; split; [lra|reflexivity]).
  all: apply Rltb_true in E.
  - split; [lra|intros; exfalso; lra].
  - destruct (IH (centroid_nudge delta t)) as [Hc _]. split; [|intros; exfalso; lra].
    unfold improve_contract in Hc.
    destruct (improve_spec_loop cap delta tolerance (centroid_nudge delta t)); [exact Hc|exact E].
Qed.

Lemma spec_loop_centroid_stuck (cap : nat) (delta tolerance : R) (t : Triangle R) :
  tolerance < isEquilateral t -> delta < 1 ->
  exists t', improve_spec_loop cap delta tolerance t = NonConverged t' /\
             isEquilateral t' = isEquilateral t.
Proof.
  intros Ht Hd. revert t Ht. induction cap as [|cap IH]; intros t Ht; cbn [improve_spec_loop];
    rsimpl; destruct (Rltb tolerance (isEquilateral t)) eqn:E;
    try (apply Rltb_false in E; exfalso; lra).
  - exists t. split; reflexivity.
  - rewrite <- (centroid_nudge_dev delta t Hd) in Ht |- *. exact (IH _ Ht).
Qed.

Lemma code_outcome_ret (fuel : nat) (t : Triangle R) :
  code_outcome (S fuel) t = Some (Converged t).
Proof. unfold code_outcome, improveEquilateral_default. rewrite improveEquilateral_ret. reflexivity. Qed.

(** ** The code and the spec's algorithm against the contract *)

(** The algorithm the spec describes meets its contract, for every
    iteration cap, [delta] and tolerance: a converged outcome is within the
    tolerance, non-convergence is reported only for inputs above it, and an
    input within the tolerance is returned unchanged. *)
Theorem improve_spec_loop_sound (cap : nat) (delta tolerance : R) (t : Triangle R) :
  improve_contract tolerance t (improve_spec_loop cap delta tolerance t).
Proof. apply improve_spec_loop_contract. Qed.

(** The code refines the contract exactly on the triangles that need no
    adjustment: [improveEquilateral()] (with one iteration of fuel or more)
    returns an outcome, and that outcome meets the contract of the spec if
    and only if the deviation of the input is already at most the default
    tolerance [1e-3]. *)
Theorem improveEquilateral_contract_iff (fuel : nat) (t : Triangle R) :
  exists o, code_outcome (S fuel) t = Some o /\
    (improve_contract default_tolerance t o <-> isEquilateral t <= default_tolerance).
Proof.
  exists (Converged t). split; [apply code_outcome_ret|]. unfold improve_contract. cbn beta iota.
  split; [intros [H _]; exact H|intros H; split; [exact H|reflexivity]].
Qed.

(** C11: The correction the spec suggests cannot meet the spec's own
    requirement to reduce the deviation: nudging every corner toward the
    centroid by [delta < 1] is a homothety of ratio [1 - delta], which
    keeps the deviation, so the spec's algorithm reports non-convergence
    for every triangle above the tolerance, whatever the cap, with the
    deviation unchanged. *)
Theorem improve_spec_loop_centroid_stuck (cap : nat) (delta tolerance : R) (t : Triangle R) :
  tolerance < isEquilateral t -> delta < 1 ->
  exists t', improve_spec_loop cap delta tolerance t = NonConverged t' /\
             isEquilateral t' = isEquilateral t.
Proof. apply spec_loop_centroid_stuck. Qed.

(** ** Witnesses *)

(** The right triangle with sides [3], [4] and [5], deviation [2 / 5]. *)
Definition tri345 : Triangle R := mkTriangle (point_of_Z 0 0 0) (point_of_Z 3 0 0) (point_of_Z 0 4 0).

Lemma sqrt_sq_Z (n : R) (m : R) : 0 <= m -> n = m * m -> sqrt n = m.
Proof. intros Hm ->. apply sqrt_square, Hm. Qed.

Lemma tri345_dev : isEquilateral tri345 = 2 / 5.
Proof.
  rewrite isEquilateral_R. unfold side1, side2, side3, tri345. cbn [p1 p2 p3].
  rewrite !distanceTo_R. unfold dist2, point_of_Z. rsimpl. cbn [x y z].
  rewrite (sqrt_sq_Z _ 3), (sqrt_sq_Z _ 5), (sqrt_sq_Z _ 4) by lra.
  unfold Rmax, Rmin. repeat destruct Rle_dec; lra.
Qed.

Lemma improve_spec_loop_centroid_stuck_witness :
  exists t', improve_spec_loop 100 (1 / 10000) (1 / 1000) tri345 = NonConverged t' /\
             isEquilateral t' = isEquilateral tri345.
Proof. apply improve_spec_loop_centroid_stuck; [rewrite tri345_dev|]; lra. Defined.
