(* ===== verification/Main.v ===== *)
(** * Main: the driver [main()] of [src/main.cpp] (lines 195-210), and the
    program run on [double]

    [main] is modelled as the list of values it prints, in order (the text
    around them is formatting and is not modelled).  Most theorems of this
    file evaluate the model on IEEE binary64, the scalar type of the C++
    program, by [vm_compute]: they are the values the compiled program
    computes, bit for bit.  [contains_corner_binary64] holds for every
    triangle of finite doubles, by the lemmas of [Binary64]. *)

From Stdlib Require Import ZArith List Lia PrimFloat.
Import ListNotations.
From S2P Require Import Prelude Scalars Point3D Geometry Binary64 Triangle Triangles.

(** What [main] writes to [std::cout]: a deviation before the adjustment,
    the triangle [improveEquilateral()] returns (printed by [print()]) and
    the deviation after. *)
Inductive output (F : Type) : Type :=
| Before (deviation : F)
| Printed (t : Triangle F)
| After (deviation : F).
Arguments Before {F} _.
Arguments Printed {F} _.
Arguments After {F} _.

Section MainOps.
Context {F : Type} `{Scalar F}.

(** [main()]: [None] when [fuel] does not let [improveEquilateral] finish. *)
Definition main (fuel : nat) : option (list (output F)) :=
  let a := point_of_Z 0 0 6 in
  let b := point_of_Z 1 0 0 in
  let c := point_of_Z 0 3 0 in
  let triangle := mkTriangle a b c in
  let deviation := isEquilateral triangle in
  match improveEquilateral_default fuel triangle with
  | None => None
  | Some (triangle', printed) =>
      let deviation' := isEquilateral triangle' in
      Some [Before deviation; Printed printed; After deviation']
  end.

End MainOps.

(** ** [main] for every scalar type *)

Section MainGeneric.
Context {F : Type} `{Scalar F}.

(** The triangle [main] builds from [a], [b] and [c]. *)
Definition main_triangle : Triangle F :=
  mkTriangle (point_of_Z 0 0 6) (point_of_Z 1 0 0) (point_of_Z 0 3 0).

(** [main] finishes with any fuel of at least one iteration, prints the
    triangle it built, and prints the same deviation after
    [improveEquilateral()] as before it. *)
Theorem main_prints_unchanged (fuel : nat) :
  main (S fuel) =
  Some [Before (isEquilateral main_triangle); Printed main_triangle;
        After (isEquilateral main_triangle)].
Proof. unfold main, improveEquilateral_default. rewrite improveEquilateral_ret. reflexivity. Qed.

End MainGeneric.

(** ** The program on [double] *)

Open Scope float_scope.

(** A point of [double]s built from integer literals. *)
Definition fpt (a b c : Z) : Point3D float := point_of_Z a b c.

(** Run on IEEE binary64, [main] prints the deviation [0x1.0ea41110082cdp-1] (0.52859547920896832)
    twice: the "adjustment" leaves it far above the tolerance [1e-3]. *)
Theorem main_binary64 (fuel : nat) :
  @main float _ (S fuel) =
  Some [Before 0x1.0ea41110082cdp-1; Printed main_triangle; After 0x1.0ea41110082cdp-1]
  /\ (default_tolerance <? 0x1.0ea41110082cdp-1) = true.
Proof.
  unfold main, improveEquilateral_default. rewrite improveEquilateral_ret.
  split; vm_compute; reflexivity.
Qed.

(** The triangle of the spec, [(0,0,0), (4,0,0), (0,4,0)], over [double]. *)
Definition spec_triangle : Triangle float :=
  mkTriangle (fpt 0 0 0) (fpt 4 0 0) (fpt 0 4 0).

(** On [double], [contains] accepts [(1,1,0)], inside the triangle, and
    also [(5,5,0)], outside it in its plane. *)
Theorem contains_outside_binary64 :
  contains spec_triangle (fpt 1 1 0) = true /\
  contains spec_triangle (fpt 5 5 0) = true.
Proof. split; vm_compute; reflexivity. Qed.

(** Finite corners and finite edge vectors. *)
Definition fin_triangle (t : Triangle float) : Prop :=
  fin3 (p1 t) /\ fin3 (p2 t) /\ fin3 (p3 t) /\
  fin3 (sub (p2 t) (p1 t)) /\ fin3 (sub (p3 t) (p2 t)) /\ fin3 (sub (p1 t) (p3 t)).

(** [corner64] closes the comparison of [sign]s once two of them are [-1]. *)
Ltac corner64 :=
  rewrite ?Z.eqb_refl; cbn [negb orb]; rewrite ?(Z.eqb_sym (-1));
  destruct (Z.eqb _ (-1)); reflexivity.

Lemma contains_p1_64 (t : Triangle float) :
  fin3 (p1 t) -> fin3 (sub (p2 t) (p1 t)) -> fin3 (sub (p3 t) (p1 t)) ->
  contains t (p1 t) = Z.eqb (sign (sub (p2 t) (p1 t)) (sub (p3 t) (p1 t))) (-1).
Proof.
  intros H1 H2 H3. pose proof (sub_self3 _ H1) as H0.
  unfold contains. cbv zeta. cbn [s_ltb s_of_Z Scalar_float].
  rewrite (ltb_zon64 _ _ (determinant_zero_l64 _ _ _ H0) zero64_0).
  rewrite (sign_zero_l64 _ _ H0 H2), (sign_zero_r64 _ _ H3 H0). corner64.
Qed.

Lemma contains_p2_64 (t : Triangle float) :
  fin3 (p2 t) -> fin3 (sub (p1 t) (p2 t)) -> fin3 (sub (p3 t) (p2 t)) ->
  contains t (p2 t) = Z.eqb (sign (sub (p3 t) (p2 t)) (sub (p1 t) (p2 t))) (-1).
Proof.
  intros H2 H1 H3. pose proof (sub_self3 _ H2) as H0.
  unfold contains. cbv zeta. cbn [s_ltb s_of_Z Scalar_float].
  rewrite (ltb_zon64 _ _ (determinant_zero_m64 _ _ _ H1 H0 H3) zero64_0).
  rewrite (sign_zero_r64 _ _ H1 H0), (sign_zero_l64 _ _ H0 H3). corner64.
Qed.

Lemma contains_p3_64 (t : Triangle float) :
  fin3 (p3 t) -> fin3 (sub (p1 t) (p3 t)) -> fin3 (sub (p2 t) (p3 t)) ->
  contains t (p3 t) = Z.eqb (sign (sub (p1 t) (p3 t)) (sub (p2 t) (p3 t))) (-1).
Proof.
  intros H3 H1 H2. pose proof (sub_self3 _ H3) as H0.
  unfold contains. cbv zeta. cbn [s_ltb s_of_Z Scalar_float].
  rewrite (ltb_zon64 _ _ (determinant_zero_r64 _ _ _ H1 H2 H0) zero64_0).
  rewrite (sign_zero_r64 _ _ H2 H0), (sign_zero_l64 _ _ H0 H1). corner64.
Qed.

(** C15: On [double], [contains] accepts a corner of a triangle with finite
    coordinates exactly when [sign] finds the two edges leaving that corner
    parallel: the edge vector from the corner to itself is a zero vector,
    so the two [sign]s that involve it are [-1] (a NaN normal) and the
    determinant is a zero, never below zero.  A non-degenerate triangle
    rejects each of its three corners. *)
Theorem contains_corners_binary64 (t : Triangle float) :
  fin_triangle t ->
  contains t (p1 t) = Z.eqb (sign (sub (p2 t) (p1 t)) (sub (p3 t) (p1 t))) (-1) /\
  contains t (p2 t) = Z.eqb (sign (sub (p3 t) (p2 t)) (sub (p1 t) (p2 t))) (-1) /\
  contains t (p3 t) = Z.eqb (sign (sub (p1 t) (p3 t)) (sub (p2 t) (p3 t))) (-1).
Proof.
  intros (H1 & H2 & H3 & H21 & H32 & H13).
  split; [|split]; [apply contains_p1_64|apply contains_p2_64|apply contains_p3_64];
    auto using fin3_sub_swap.
Qed.

(** On [double], the determinant pre-check rejects [(1,1,1)] above the
    plane but accepts [(1,1,-100)] below it: [contains] is not a test of
    membership in the plane. *)
Theorem contains_offplane_binary64 :
  contains spec_triangle (fpt 1 1 (-100)) = true /\
  contains spec_triangle (fpt 1 1 1) = false.
Proof. split; vm_compute; reflexivity. Qed.

(** On [double], [sign] reports [1] for both orders of two orthogonal
    vectors and [-1] for two parallel ones. *)
Theorem sign_binary64 :
  sign (fpt 1 0 0) (fpt 0 1 0) = 1%Z /\
  sign (fpt 0 1 0) (fpt 1 0 0) = 1%Z /\
  sign (fpt 1 0 0) (fpt 2 0 0) = (-1)%Z.
Proof. repeat split; vm_compute; reflexivity. Qed.

(** The area of [(0,0,0), (1,0,0), (0,1,0)] is exactly [0.5] on [double]. *)
Theorem area_binary64 :
  area (mkTriangle (fpt 0 0 0) (fpt 1 0 0) (fpt 0 1 0)) = 0.5.
Proof. vm_compute. reflexivity. Qed.

(** A triangle whose corners coincide has a NaN deviation on [double]
    ([0 / 0]); the loop of [improveEquilateral] is then not entered. *)
Theorem isEquilateral_point_binary64 :
  let t := mkTriangle (fpt 1 1 1) (fpt 1 1 1) (fpt 1 1 1) in
  PrimFloat.is_nan (isEquilateral t) = true /\
  (default_tolerance <? isEquilateral t) = false.
Proof. split; vm_compute; reflexivity. Qed.

(** The three corners of the triangle of the spec are rejected. *)
Lemma contains_corners_binary64_witness :
  contains spec_triangle (fpt 0 0 0) = false /\ contains spec_triangle (fpt 4 0 0) = false /\
  contains spec_triangle (fpt 0 4 0) = false.
Proof.
  destruct (contains_corners_binary64 spec_triangle) as (E1 & E2 & E3);
    [vm_compute; tauto|].
  change (fpt 0 0 0) with (p1 spec_triangle). change (fpt 4 0 0) with (p2 spec_triangle).
  change (fpt 0 4 0) with (p3 spec_triangle).
  rewrite E1, E2, E3. split; [|split]; vm_compute; reflexivity.
Defined.

(** On [double], [isEquilateral] is not scale invariant at the top of the
    range: multiplying the triangle of [main] by [10^200] makes every
    [std::pow(d, 2)] in [distanceTo] overflow to infinity, and the
    deviation becomes [(inf - inf) / inf], NaN, although the scaled
    coordinates and side lengths are all representable. *)
Theorem isEquilateral_overflow_binary64 :
  let t := scale_triangle main_triangle (float_of_Z (10 ^ 200)) in
  PrimFloat.is_nan (isEquilateral t) = true /\
  distanceTo (p1 t) (p2 t) = PrimFloat.infinity /\
  PrimFloat.is_finite (x (p1 t)) = true.
Proof. repeat split; vm_compute; reflexivity. Qed.

(** On [double], a tweak by [-delta] does not always undo a tweak by
    [delta]: from [(1,1,1)] along [(1,1,1)] with [delta = 1/11] the point
    comes back as [(0.9999999999999999, ...)]. *)
Theorem vector_tweak_roundtrip_binary64 :
  let d := (float_of_Z 1 / float_of_Z 11)%float in
  snd (vector_tweak (snd (vector_tweak (fpt 1 1 1) (fpt 1 1 1) d true)) (fpt 1 1 1)
         (PrimFloat.opp d) true) <> fpt 1 1 1.
Proof. vm_compute. discriminate. Qed.

(** On [double], [contains] rejects a point that lies exactly in the plane
    and strictly inside the tilted triangle [(0,0,0), (1,0,1), (0,1,1)]:
    [(a, b, a + b)] with [a = 6213206 * 2^-28] and [b = 62930647 * 2^-28]
    (every coordinate a double, [a + b] exact).  The determinant
    pre-check, exactly zero in the exact model, is rounding noise below
    zero. *)
Lemma contains_interior_rejected_binary64 :
  let t := mkTriangle (fpt 0 0 0) (fpt 1 0 1) (fpt 0 1 1) in
  let d := float_of_Z (2 ^ 28) in
  let p := mkPoint3D (float_of_Z 6213206 / d) (float_of_Z 62930647 / d)
                     (float_of_Z 69143853 / d) in
  (float_of_Z 6213206 / d + float_of_Z 62930647 / d = float_of_Z 69143853 / d)%float /\
  contains t p = false.
Proof. split; vm_compute; reflexivity. Qed.
