(* ===== verification/Output.v ===== *)
(** * Output: what the program writes to [std::cout]

    [Point3D::print] ([src/main.cpp], lines 40-42), [Triangle::print]
    (lines 163-168) and the two lines [main] writes around them (lines 204
    and 208) are modelled as lists of tokens: a literal text, a [double]
    inserted with [operator<<], the character ['\n'] and [std::endl].  The
    decimal formatting [operator<<] applies to a [double] (six significant
    digits by default) is not modelled: a [Num] token carries the value
    itself.  [main_stdout] renders the values [Main.main] prints.  A parser
    of this format ([parse_main]) recovers every value from the text, so
    the output determines the deviations and the triangle printed. *)

From Stdlib Require Import String List ZArith PrimFloat.
Import ListNotations.
From S2P Require Import Prelude Scalars Point3D Triangle Main.

Inductive token (F : Type) : Type :=
| Text (s : string)
| Num (d : F)
| Newline
| Endl.
Arguments Text {F} s%_string.
Arguments Num {F} d.
Arguments Newline {F}.
Arguments Endl {F}.

Section OutputOps.
Context {F : Type} `{Scalar F}.

(** [Point3D::print()] *)
Definition print_point (p : Point3D F) : list (token F) :=
  [Text "Point("; Num (x p); Text ", "; Num (y p); Text ", "; Num (z p); Text ")"; Endl].

(** [Triangle::print()] *)
Definition print_triangle (t : Triangle F) : list (token F) :=
  [Text "Triangle points:"; Newline] ++ print_point (p1 t) ++ print_point (p2 t) ++ print_point (p3 t).

(** One value [main] prints, as text. *)
Definition render (o : output F) : list (token F) :=
  match o with
  | Before d => [Text "Before deviation from equilateral: "; Num d; Endl]
  | Printed t => print_triangle t
  | After d => [Text "After deviation from equilateral: "; Num d; Endl]
  end.

(** The text [main] writes, [None] when [improveEquilateral] runs out of
    fuel. *)
Definition main_stdout (fuel : nat) : option (list (token F)) :=
  option_map (flat_map render) (main fuel).

(** ** A parser of the format *)

(** The option monad of the parser, with its notations in [parse_scope]. *)
Definition obind {A B : Type} (f : A -> option B) (m : option A) : option B :=
  match m with Some a => f a | None => None end.

Declare Scope parse_scope.
Notation "x <- m ;; k" := (obind (fun x => k) m)
  (at level 61, m at next level, right associativity) : parse_scope.
Notation "' p <- m ;; k" := (obind (fun p => k) m)
  (at level 61, p pattern, m at next level, right associativity) : parse_scope.
Local Open Scope parse_scope.

Definition expect_text (s : string) (ts : list (token F)) : option (list (token F)) :=
  match ts with
  | Text s' :: r => if String.eqb s s' then Some r else None
  | _ => None
  end.

Definition expect_num (ts : list (token F)) : option (F * list (token F)) :=
  match ts with
  | Num d :: r => Some (d, r)
  | _ => None
  end.

Definition expect_newline (ts : list (token F)) : option (list (token F)) :=
  match ts with
  | Newline :: r => Some r
  | _ => None
  end.

Definition expect_endl (ts : list (token F)) : option (list (token F)) :=
  match ts with
  | Endl :: r => Some r
  | _ => None
  end.

Definition parse_point (ts : list (token F)) : option (Point3D F * list (token F)) :=
  r <- expect_text "Point(" ts ;;
  '(a, r) <- expect_num r ;;
  r <- expect_text ", " r ;;
  '(b, r) <- expect_num r ;;
  r <- expect_text ", " r ;;
  '(c, r) <- expect_num r ;;
  r <- expect_text ")" r ;;
  r <- expect_endl r ;;
  Some (mkPoint3D a b c, r).

Definition parse_triangle (ts : list (token F)) : option (Triangle F * list (token F)) :=
  r <- expect_text "Triangle points:" ts ;;
  r <- expect_newline r ;;
  '(a, r) <- parse_point r ;;
  '(b, r) <- parse_point r ;;
  '(c, r) <- parse_point r ;;
  Some (mkTriangle a b c, r).

Definition parse_deviation (label : string) (ts : list (token F)) : option (F * list (token F)) :=
  r <- expect_text label ts ;;
  '(d, r) <- expect_num r ;;
  r <- expect_endl r ;;
  Some (d, r).

(** The three values of [main]'s output, when the text has its form. *)
Definition parse_main (ts : list (token F)) : option (F * Triangle F * F) :=
  '(d, r) <- parse_deviation "Before deviation from equilateral: " ts ;;
  '(t, r) <- parse_triangle r ;;
  '(d', r) <- parse_deviation "After deviation from equilateral: " r ;;
  match r with [] => Some (d, t, d') | _ => None end.

End OutputOps.

(** ** The parser inverts the printers *)

Section Roundtrip.
Context {F : Type} `{Scalar F}.

Lemma parse_point_print (p : Point3D F) (rest : list (token F)) :
  parse_point (print_point p ++ rest) = Some (p, rest).
Proof. destruct p. reflexivity. Qed.

Lemma parse_triangle_print (t : Triangle F) (rest : list (token F)) :
  parse_triangle (print_triangle t ++ rest) = Some (t, rest).
Proof.
  destruct t as [a b c]. unfold print_triangle. rewrite <- !app_assoc. cbn [app p1 p2 p3].
  unfold parse_triangle. cbn -[parse_point print_point].
  do 3 (rewrite parse_point_print; cbn [obind]). reflexivity.
Qed.

Lemma parse_main_render (d d' : F) (t : Triangle F) :
  parse_main (flat_map render [Before d; Printed t; After d']) = Some (d, t, d').
Proof.
  cbn [flat_map render]. rewrite app_nil_r. unfold parse_main. cbn -[parse_triangle print_triangle].
  rewrite parse_triangle_print. reflexivity.
Qed.

(** Round trip of the output format: from the text [main]'s printing
    statements write for any two deviations and any triangle, the parser
    recovers the two deviations and the triangle's three corners, in
    order; the text is unambiguous. *)
Theorem main_output_roundtrip (d d' : F) (t : Triangle F) :
  parse_main (flat_map render [Before d; Printed t; After d']) = Some (d, t, d').
Proof. apply parse_main_render. Qed.

End Roundtrip.

(** On IEEE binary64, [main] writes its deviation line with the value
    [0x1.0ea41110082cdp-1], then [Triangle points:] and the corners
    [(0, 0, 6)], [(1, 0, 0)], [(0, 3, 0)] as three [Point(...)] lines, then
    the same deviation again, for any fuel of at least one iteration. *)
Theorem main_stdout_binary64 (fuel : nat) :
  @main_stdout float _ (S fuel) =
  Some [Text "Before deviation from equilateral: "; Num 0x1.0ea41110082cdp-1; Endl;
        Text "Triangle points:"; Newline;
        Text "Point("; Num 0; Text ", "; Num 0; Text ", "; Num 6; Text ")"; Endl;
        Text "Point("; Num 1; Text ", "; Num 0; Text ", "; Num 0; Text ")"; Endl;
        Text "Point("; Num 0; Text ", "; Num 3; Text ", "; Num 0; Text ")"; Endl;
        Text "After deviation from equilateral: "; Num 0x1.0ea41110082cdp-1; Endl]%float.
Proof.
  unfold main_stdout, main, improveEquilateral_default. rewrite improveEquilateral_ret.
  vm_compute. reflexivity.
Qed.
