(* ===== verification/Containment.v ===== *)
(** * Containment: what [Triangle::contains] decides, against what a
    point-in-triangle test promises

    Over [R], every point [p] of space is [in_plane t s u + w * h] for a
    non-degenerate triangle [t] with edge cross product [w]; [decompose]
    computes [(s, u, h)] by Cramer's rule.  The file states what a
    point-in-triangle test promises as the record [InsideTest] (accept every
    point strictly inside, accept nothing outside the closed triangle),
    shows that the promise can be kept ([contains_ref], the same-side test
    taken about the triangle's own normal), and characterises [contains]
    completely: it accepts the points of the plane off the three side lines
    and every point strictly on one side of the plane, so it keeps the first
    half of the promise and breaks the second. *)

From Stdlib Require Import ZArith Reals Lra.
From S2P Require Import Prelude Scalars Point3D Geometry Triangle.

Open Scope R_scope.

(** The closed and the open triangle, by affine coordinates in its plane. *)
Definition inside_closed (t : Triangle R) (p : Point3D R) : Prop :=
  exists s u, p = in_plane t s u /\ 0 <= s /\ 0 <= u /\ s + u <= 1.

Definition inside_open (t : Triangle R) (p : Point3D R) : Prop :=
  exists s u, p = in_plane t s u /\ 0 < s /\ 0 < u /\ s + u < 1.

(** The coordinates [(s, u, h)] of [p] in the frame
    [(p1, p2 - p1, p3 - p1, edge_cross t)], by Cramer's rule. *)
Definition decompose (t : Triangle R) (p : Point3D R) : R * R * R :=
  let e1 := sub (p2 t) (p1 t) in
  let e2 := sub (p3 t) (p1 t) in
  let w := edge_cross t in
  let d := sub p (p1 t) in
  let n := dotProduct w w in
  (determinant d e2 w / n, determinant e1 d w / n, determinant e1 e2 d / n).

(** What a point-in-triangle test promises on non-degenerate triangles. *)
Record InsideTest (test : Triangle R -> Point3D R -> bool) : Prop := {
  accepts_interior : forall t p, edge_cross t <> origin -> inside_open t p -> test t p = true;
  accepts_only_inside : forall t p, edge_cross t <> origin -> test t p = true -> inside_closed t p
}.

(** The boolean tests [0 <= a] and [a = 0] on [R]. *)
Definition Rleb0 (a : R) : bool := if Rle_dec 0 a then true else false.
Definition Reqb0 (a : R) : bool := if Req_EM_T a 0 then true else false.

(** A reference test: [p] is in the plane and on the inner side of each
    edge, the side measured about the triangle's normal [edge_cross t]
    instead of the normal of each pair of corner vectors. *)
Definition contains_ref (t : Triangle R) (p : Point3D R) : bool :=
  let w := edge_cross t in
  let v0 := sub (p1 t) p in
  let v1 := sub (p2 t) p in
  let v2 := sub (p3 t) p in
  Reqb0 (determinant v0 v1 v2) && Rleb0 (dotProduct w (cross v0 v1)) &&
  Rleb0 (dotProduct w (cross v1 v2)) && Rleb0 (dotProduct w (cross v2 v0)).

(** ** The frame *)

Lemma dot_edge_pos (t : Triangle R) : edge_cross t <> origin ->
  0 < dotProduct (edge_cross t) (edge_cross t).
Proof. apply dot_self_pos. Qed.

(** Every point is [in_plane t s u + w * h] for its coordinates. *)
Lemma decompose_spec (t : Triangle R) (p : Point3D R) :
  edge_cross t <> origin ->
  let '(s, u, h) := decompose t p in p = add (in_plane t s u) (mul (edge_cross t) h).
Proof.
  intros Hw. pose proof (dot_edge_pos t Hw) as Hn. revert Hn.
  unfold decompose, in_plane, edge_cross, determinant, dotProduct.
  destruct t as [[ax ay az] [bx by' bz] [cx cy cz]], p as [px py pz]. cbn [p1 p2 p3].
  intros Hn. point_coords; cbn [x y z] in Hn; field; lra.
Qed.

(** [determinant] is invariant under cyclic permutation, so a zero cross
    product of any two of its arguments makes it zero. *)
Lemma determinant_cross_zero (a b c : Point3D R) :
  cross a b = origin \/ cross b c = origin \/ cross c a = origin -> determinant a b c = 0.
Proof.
  intros [H0|[H0|H0]].
  - rewrite determinant_cross_l, H0. geo_ring.
  - rewrite determinant_triple, H0. geo_ring.
  - replace (determinant a b c) with (dotProduct (cross c a) b) by geo_ring. rewrite H0. geo_ring.
Qed.

Section OffPlane.
Variables (t : Triangle R) (s u h : R).
Let w := edge_cross t.
Let p := add (in_plane t s u) (mul w h).

(** The determinant [contains] tests is [- h * |w|^2]: its sign is the side
    of the plane [p] lies on. *)
Lemma determinant_off_plane :
  determinant (sub (p1 t) p) (sub (p2 t) p) (sub (p3 t) p) = - (h * dotProduct w w).
Proof. subst p w. unfold in_plane, edge_cross. geo_ring. Qed.

Lemma contains_off_plane_R :
  w <> origin -> h <> 0 -> (contains t p = true <-> h < 0).
Proof.
  intros Hw Hh. pose proof (dot_edge_pos t Hw) as Hn. fold w in Hn.
  rewrite contains_R. rewrite determinant_off_plane.
  assert (Hd : - (h * dotProduct w w) <> 0) by (intros H0; apply Hh; nra).
  rewrite <- determinant_off_plane in Hd.
  assert (Hc : forall a b c, determinant a b c <> 0 ->
            cross a b <> origin /\ cross b c <> origin /\ cross c a <> origin)
    by (intros a b c Hdet; repeat split; intros H0; apply Hdet, determinant_cross_zero; tauto).
  destruct (Hc _ _ _ Hd) as (H01 & H12 & H20).
  split; [intros [Hle _]; nra|intros Hlt; repeat split; try tauto; nra].
Qed.

(** C6: Off the plane of a non-degenerate triangle, [contains] accepts exactly
    the points on one side: those with [h < 0], however far from the
    triangle. *)
Theorem contains_off_plane :
  w <> origin -> h <> 0 -> (contains t p = true <-> h < 0).
Proof. exact contains_off_plane_R. Qed.

End OffPlane.

(** A point of the plane, displaced by [w * 0], is the point itself. *)
Lemma off_plane_0 (t : Triangle R) (s u : R) :
  add (in_plane t s u) (mul (edge_cross t) 0) = in_plane t s u.
Proof. point_ring. Qed.

(** C2: The whole of [contains] on a non-degenerate triangle, by the
    coordinates [(s, u, h)] of the point: on the plane ([h = 0]) it accepts
    the points with no zero barycentric coordinate, off it every point with
    [h < 0]. *)
Theorem contains_decomposed (t : Triangle R) (p : Point3D R) :
  edge_cross t <> origin ->
  let '(s, u, h) := decompose t p in
  contains t p = true <-> (h = 0 /\ s <> 0 /\ u <> 0 /\ s + u <> 1) \/ h < 0.
Proof.
  intros Hw. pose proof (decompose_spec t p Hw) as Hp.
  destruct (decompose t p) as [[s u] h]. rewrite Hp.
  destruct (Req_dec h 0) as [->|Hh].
  - rewrite off_plane_0, (contains_in_plane_R t s u Hw). lra.
  - rewrite (contains_off_plane_R t s u h Hw Hh). lra.
Qed.

(** [contains] keeps the first half of the promise: it accepts every point
    strictly inside a non-degenerate triangle. *)
Theorem contains_accepts_interior (t : Triangle R) (p : Point3D R) :
  edge_cross t <> origin -> inside_open t p -> contains t p = true.
Proof.
  intros Hw (s & u & -> & Hs & Hu & Hsu).
  apply (contains_in_plane_R t s u Hw). lra.
Qed.

(** [(5,5,0)] is outside the closed triangle [(0,0,0), (4,0,0), (0,4,0)]. *)
Lemma outside_5_5 : ~ inside_closed spec_triangle_R (mkPoint3D 5 5 0).
Proof.
  intros (s & u & Heq & Hs & Hu & Hsu). revert Heq.
  unfold in_plane, spec_triangle_R, add, sub, mul. rsimpl. cbn [p1 p2 p3 x y z].
  intros Heq. injection Heq. intros. lra.
Qed.

Lemma spec_triangle_nondegenerate : edge_cross spec_triangle_R <> origin.
Proof. unfold edge_cross, spec_triangle_R. cbn [p1 p2 p3]. point_neq. Qed.

(** [contains] breaks the second half: it is not a point-in-triangle test,
    as it accepts [(5,5,0)] for the triangle [(0,0,0), (4,0,0), (0,4,0)]. *)
Theorem contains_not_inside_test : ~ InsideTest contains.
Proof.
  intros Htest. apply outside_5_5.
  apply (accepts_only_inside _ Htest _ _ spec_triangle_nondegenerate).
  replace (mkPoint3D 5 5 0) with (in_plane spec_triangle_R (5/4) (5/4))
    by (unfold in_plane, spec_triangle_R; cbn [p1 p2 p3]; point_coords; field).
  apply (contains_in_plane_R _ _ _ spec_triangle_nondegenerate). lra.
Qed.

(** ** The promise can be kept *)

Lemma Rleb0_true (a : R) : Rleb0 a = true <-> 0 <= a.
Proof. unfold Rleb0. destruct (Rle_dec 0 a); split; intros; auto; discriminate. Qed.

Lemma Reqb0_true (a : R) : Reqb0 a = true <-> a = 0.
Proof. unfold Reqb0. destruct (Req_EM_T a 0); split; intros; auto; discriminate. Qed.

Lemma dot_mul_r (a b : Point3D R) (k : R) : dotProduct a (mul b k) = k * dotProduct a b.
Proof. geo_ring. Qed.

(** [contains_ref] on a point of the plane: the three side tests are the
    signs of the barycentric coordinates. *)
Lemma contains_ref_in_plane (t : Triangle R) (s u : R) :
  edge_cross t <> origin ->
  (contains_ref t (in_plane t s u) = true <-> 0 <= s /\ 0 <= u /\ s + u <= 1).
Proof.
  intros Hw. pose proof (dot_edge_pos t Hw) as Hn.
  unfold contains_ref. rewrite !Bool.andb_true_iff, Reqb0_true, !Rleb0_true.
  rewrite determinant_in_plane, cross01_in_plane, cross12_in_plane, cross20_in_plane.
  fold (edge_cross t). rewrite !dot_mul_r.
  set (n := dotProduct (edge_cross t) (edge_cross t)) in *.
  split; [intros (((_ & H1) & H2) & H3); repeat split; nra
         |intros (Hs & Hu & Hsu); repeat split; nra].
Qed.

(** The reference test keeps both halves of the promise, so [InsideTest]
    is satisfiable: it is the specification [contains] fails, not an
    impossible one. *)
Lemma contains_ref_inside_test : InsideTest contains_ref.
Proof.
  split.
  - intros t p Hw (s & u & -> & Hs & Hu & Hsu). apply contains_ref_in_plane; [exact Hw|lra].
  - intros t p Hw Href. pose proof (decompose_spec t p Hw) as Hp.
    destruct (decompose t p) as [[s u] h]. rewrite Hp in Href |- *.
    assert (Hh : h = 0).
    { unfold contains_ref in Href. rewrite !Bool.andb_true_iff, Reqb0_true in Href.
      destruct Href as [[[Hdet _] _] _]. rewrite determinant_off_plane in Hdet.
      pose proof (dot_edge_pos t Hw). nra. }
    subst h. rewrite off_plane_0 in Href |- *.
    apply contains_ref_in_plane in Href as (Hs & Hu & Hsu); [|exact Hw].
    exists s, u. auto.
Qed.

(** ** Witnesses at the triangle [(0,0,0), (4,0,0), (0,4,0)] *)

(** [(1,1,-16)], below the plane, is accepted. *)
Lemma contains_off_plane_witness :
  contains spec_triangle_R
    (add (in_plane spec_triangle_R (1/4) (1/4)) (mul (edge_cross spec_triangle_R) (-1))) = true.
Proof.
  refine (proj2 (contains_off_plane spec_triangle_R (1/4) (1/4) (-1)
                   spec_triangle_nondegenerate _) _); lra.
Defined.

Lemma contains_decomposed_witness :
  let '(s, u, h) := decompose spec_triangle_R (mkPoint3D 1 1 0) in
  contains spec_triangle_R (mkPoint3D 1 1 0) = true <->
  (h = 0 /\ s <> 0 /\ u <> 0 /\ s + u <> 1) \/ h < 0.
Proof. exact (contains_decomposed spec_triangle_R (mkPoint3D 1 1 0) spec_triangle_nondegenerate). Defined.

Lemma contains_accepts_interior_witness :
  contains spec_triangle_R (in_plane spec_triangle_R (1/4) (1/4)) = true.
Proof.
  apply contains_accepts_interior; [exact spec_triangle_nondegenerate|].
  exists (1/4), (1/4). repeat split; lra.
Defined.
